(** * async-2captcha: the task lifecycle, checked against its description

    A shallow embedding of the Python package [async_2captcha]
    ([client.py], [running_task.py], [solvers/base.py],
    [solvers/coordinates.py]).  Coroutines become functions in a state and
    exception monad over a [world] that holds the Python heap (the
    dictionaries that are passed by reference) and the trace of observable
    events (HTTP posts and sleeps).  The unbounded [while True] loop of
    [RunningTask.wait_until_completed] is unrolled by a fuel argument, and
    every statement about its result says which fuel is enough. *)

From Stdlib Require Import ZArith String Ascii List Floats.
From stdpp Require Import gmap strings list fin_maps.

Set Warnings "-register-all".
Local Open Scope string_scope.
Local Open Scope list_scope.
Local Open Scope Z_scope.

(** ** Python values *)

(** Modelled from the spec: [enums.TaskType] ([enums.py] is not among the
    sources).  Each solver has its own task type; [client.py] builds a
    coordinates and a turnstile solver, and [COORDINATES] is the member
    [solvers/coordinates.py] passes on. *)
Inductive TaskType := COORDINATES | TURNSTILE.

(** The values that travel through payloads and decoded JSON bodies. *)
Inductive value :=
| VNone
| VBool (b : bool)
| VInt (z : Z)
| VFloat (f : float)
| VStr (s : string)
| VEnum (t : TaskType)
| VList (l : list value)
| VDict (d : gmap string value).

Abbreviation dict := (gmap string value).

(** [Optional[int]] and [Optional[str]] arguments as values. *)
Definition of_opt_int (o : option Z) : value :=
  match o with Some z => VInt z | None => VNone end.

Definition of_opt_str (o : option string) : value :=
  match o with Some s => VStr s | None => VNone end.

(** ** Exceptions, events and the world *)

(** What can be raised: the service's application error with its
    [errorId], [errorCode] and [errorDescription] ([TwoCaptchaError] in the
    docstring of the solver), a failure of the network, a failed model
    validation, and the errors of the built-ins used.  [DanglingReference]
    is raised by the store on a location that holds no dictionary, which no
    Python reference can be. *)
Inductive exn :=
| TwoCaptchaError (error_id : Z) (error_code error_description : string)
| NetworkError (detail : string)
| ValidationError (model field : string)
| KeyError (key : string)
| TypeError
| ValueError
| OverflowError
| DanglingReference.

Inductive outcome (A : Type) :=
| Ret (a : A)
| Raise (e : exn).
Arguments Ret {A} a.
Arguments Raise {A} e.

(** What an observer of the process sees: [session.post(path, json=...)]
    and [asyncio.sleep(delay)]. *)
Inductive event :=
| EvPost (path : string) (json : option dict)
| EvSleep (delay : Z).

Definition loc := positive.

Record world := World {
  heap : gmap loc dict;
  trace : list event
}.

Definition log_event (ev : event) (w : world) : world :=
  World (heap w) (trace w ++ [ev]).

Definition set_heap (h : gmap loc dict) (w : world) : world :=
  World h (trace w).

(** ** The coroutine monad: state and exceptions *)

Definition M (A : Type) : Type := world -> outcome A * world.

Definition ret {A} (a : A) : M A := fun w => (Ret a, w).

Definition raise {A} (e : exn) : M A := fun w => (Raise e, w).

Definition bind {A B} (c : M A) (k : A -> M B) : M B :=
  fun w =>
    match c w with
    | (Ret a, w') => k a w'
    | (Raise e, w') => (Raise e, w')
    end.

Definition lift {A} (o : outcome A) : M A := fun w => (o, w).

Notation "'let*' x ':=' c 'in' k" := (bind c (fun x => k))
  (at level 10, x name, c at level 100, k at level 200).

(** [d[key] = v] on the dictionary a reference points to. *)
Definition dict_setitem (l : loc) (key : string) (v : value) : M unit :=
  fun w =>
    match heap w !! l with
    | Some d => (Ret tt, set_heap (<[l := <[key := v]> d]> (heap w)) w)
    | None => (Raise DanglingReference, w)
    end.

(** Reading the dictionary behind a reference (when it is serialised). *)
Definition deref (l : loc) : M dict :=
  fun w =>
    match heap w !! l with
    | Some d => (Ret d, w)
    | None => (Raise DanglingReference, w)
    end.

(** A dictionary display [{...}] creates a new object. *)
Definition new_dict (d : dict) : M loc :=
  fun w =>
    let l := fresh (dom (heap w)) in
    (Ret l, set_heap (<[l := d]> (heap w)) w).

(** [data[key]] on a decoded mapping. *)
Definition dict_getitem (d : dict) (key : string) : M value :=
  match d !! key with
  | Some v => ret v
  | None => raise (KeyError key)
  end.

(** [await asyncio.sleep(delay)]. *)
Definition sleep (delay : Z) : M unit :=
  fun w => (Ret tt, log_event (EvSleep delay) w).

(** ** The transport (external collaborator) *)

(** Modelled from the spec: [http_session.HTTPSession]
    ([http_session.py] is not among the sources), the transport of section
    6.  [client.py] constructs it from a base URL and a default body; its
    interface is [post(path, json=None) -> mapping], which either returns
    the decoded response or raises.  The remote end is the field
    [transport]: what one round trip answers, given everything that
    happened before (earlier posts and the time slept) and the request. *)
Record HTTPSession := {
  base_url : string;
  default_json : dict;
  transport : list event -> string -> option dict -> outcome dict
}.

(** Modelled from the spec: [HTTPSession.post(path, json=json)] (section
    6), one round trip, recorded in the trace; the answer or the failure is
    the remote end's. *)
Definition HTTPSession_post (self : HTTPSession) (path : string)
    (json : option dict) : M dict :=
  fun w => (transport self (trace w) path json, log_event (EvPost path json) w).

(** ** The Task model *)

(** Modelled from the spec: [models/task.py] (class [Task]) is not among the
    sources.  Section 3 of the description gives the fields: [task_id],
    [error_id] (integer, 0 = no error), [error_code] and
    [error_description] (present only on errors), [status] (a string,
    [processing] or [ready], other values tolerated) and [solution]
    (opaque for the generic Task, absent until ready).  The record is
    parametrised by the type of the solution, so that the subclass
    [CoordinatesTask] of [solvers/coordinates.py], which only re-types
    [solution], is an instance of it and inherits the predicates. *)
Record TaskModel (Sol : Type) := {
  task_id : option Z;
  error_id : Z;
  error_code : option string;
  error_description : option string;
  status : option string;
  solution : option Sol
}.
Arguments task_id {Sol} _.
Arguments error_id {Sol} _.
Arguments error_code {Sol} _.
Arguments error_description {Sol} _.
Arguments status {Sol} _.
Arguments solution {Sol} _.

Abbreviation Task := (TaskModel value).

Definition status_is {Sol} (t : TaskModel Sol) (s : string) : bool :=
  match status t with
  | Some s' => bool_decide (s' = s)
  | None => false
  end.

(** Modelled from the spec: [Task.is_ready] (section 4.1), true iff
    [error_id == 0] and [status == "ready"]. *)
Definition is_ready {Sol} (t : TaskModel Sol) : bool :=
  (error_id t =? 0) && status_is t "ready".

(** Modelled from the spec: [Task.is_processing] (section 4.1), true iff
    [error_id == 0] and [status == "processing"]. *)
Definition is_processing {Sol} (t : TaskModel Sol) : bool :=
  (error_id t =? 0) && status_is t "processing".

(** Modelled from the spec: [is_error] (section 4.1, derivable), true iff
    [error_id != 0]. *)
Definition is_error {Sol} (t : TaskModel Sol) : bool :=
  negb (error_id t =? 0).

(** Modelled from the spec: validation of one field (section 7).  A value
    of an unexpected type and a missing required field are parse failures;
    an absent or null optional field is [None]. *)
Definition validate_int (model field : string) (v : value) : outcome Z :=
  match v with
  | VInt z => Ret z
  | _ => Raise (ValidationError model field)
  end.

Definition validate_str (model field : string) (v : value) : outcome string :=
  match v with
  | VStr s => Ret s
  | _ => Raise (ValidationError model field)
  end.

Definition validate_optional {A} (validate : value -> outcome A)
    (o : option value) : outcome (option A) :=
  match o with
  | None | Some VNone => Ret None
  | Some v =>
      match validate v with
      | Ret a => Ret (Some a)
      | Raise e => Raise e
      end
  end.

Definition validate_required {A} (model field : string)
    (validate : value -> outcome A) (o : option value) : outcome A :=
  match o with
  | None => Raise (ValidationError model field)
  | Some v => validate v
  end.

Definition obind {A B} (o : outcome A) (k : A -> outcome B) : outcome B :=
  match o with
  | Ret a => k a
  | Raise e => Raise e
  end.

Notation "'try' x ':=' o 'in' k" := (obind o (fun x => k))
  (at level 10, x name, o at level 100, k at level 200).

(** Modelled from the spec: the field-name convention of
    [models/base.py] (class [CamelCaseModel], section 6): the wire name of
    a field is its snake_case name in camelCase. *)
Module CamelCase.

Definition upper (c : ascii) : ascii :=
  let n := nat_of_ascii c in
  if ((97 <=? n) && (n <=? 122))%nat then ascii_of_nat (n - 32) else c.

Fixpoint camel (s : list ascii) : list ascii :=
  match s with
  | "_"%char :: c :: s' => upper c :: camel s'
  | c :: s' => c :: camel s'
  | [] => []
  end.

Definition to_camel (field : string) : string :=
  String.string_of_list_ascii (camel (String.list_ascii_of_string field)).

End CamelCase.

(** Modelled from the spec: validation of the Task fields out of a
    mapping (sections 4.1 and 7), shared by the generic Task and its typed
    subclasses: [key] says under which name a field is
    looked up, [validate_solution] is the declared type of [solution].
    [error_id] is required; a missing [solution], [error_code],
    [error_description], [status] or [task_id] does not fail (poll
    responses carry no task id); keys that are no field are ignored. *)
Definition TaskModel_validate {Sol} (model : string) (key : string -> string)
    (validate_solution : value -> outcome Sol) (data : dict)
    : outcome (TaskModel Sol) :=
  try eid := validate_required model "error_id" (validate_int model "error_id")
               (data !! key "error_id") in
  try ecode := validate_optional (validate_str model "error_code")
                 (data !! key "error_code") in
  try edesc := validate_optional (validate_str model "error_description")
                 (data !! key "error_description") in
  try tid := validate_optional (validate_int model "task_id")
               (data !! key "task_id") in
  try st := validate_optional (validate_str model "status")
              (data !! key "status") in
  try sol := validate_optional validate_solution (data !! key "solution") in
  Ret {| task_id := tid; error_id := eid; error_code := ecode;
         error_description := edesc; status := st; solution := sol |}.

(** Modelled from the spec: [Task.model_validate] on a decoded response
    (sections 4.1, 6 and 7): wire names, opaque solution. *)
Definition Task_model_validate (data : dict) : outcome Task :=
  TaskModel_validate "Task" CamelCase.to_camel Ret data.

(** Modelled from the spec: [Task.model_dump()], the fields under their
    in-memory names, with [None] for an absent one. *)
Definition Task_model_dump (t : Task) : dict :=
  {[ "task_id" := of_opt_int (task_id t);
     "error_id" := VInt (error_id t);
     "error_code" := of_opt_str (error_code t);
     "error_description" := of_opt_str (error_description t);
     "status" := of_opt_str (status t);
     "solution" := default VNone (solution t) ]}.

(** ** The built-in [float()] *)

(** Python's [float(x)]: a float is returned as it is, an int (and a bool,
    which is an int) is rounded to the nearest double or overflows, a string
    is parsed as a float literal, anything else is a [TypeError].  Doubles
    are the primitive binary64 floats; rounding is to nearest, ties to
    even, through [SpecFloat.binary_normalize].

    A string value holds the UTF-8 bytes of the Python string.  As CPython
    does, [float] first turns a string that is not pure ASCII into ASCII
    (white space beyond ASCII becomes a blank, a decimal digit of any
    script its ASCII digit, the first other character beyond ASCII a
    question mark that ends the text), then drops the ASCII white space
    (tab to carriage return, and blank) around the text, and parses what is
    left.  The tables of digits and white space are those of Unicode
    14.0. *)
Module PyFloat.

Definition prec : Z := 53.
Definition emax : Z := 1024.

Definition byte (c : ascii) : Z := Z.of_nat (nat_of_ascii c).

Definition char (n : Z) : ascii := ascii_of_nat (Z.to_nat n).

(** Stands for bytes that encode no character. *)
Definition no_character : Z := -1.

Definition continuation (b : Z) : bool := (0x80 <=? b) && (b <? 0xC0).

(** The code points a UTF-8 byte sequence encodes (shortest form only). *)
Fixpoint decode (s : list Z) : list Z :=
  match s with
  | [] => []
  | b :: r =>
      if b <? 0x80 then b :: decode r
      else if (0xC2 <=? b) && (b <? 0xE0) then
        match r with
        | c1 :: r1 =>
            if continuation c1
            then ((b - 0xC0) * 64 + (c1 - 0x80)) :: decode r1
            else no_character :: decode r
        | _ => no_character :: decode r
        end
      else if (0xE0 <=? b) && (b <? 0xF0) then
        match r with
        | c1 :: c2 :: r2 =>
            let cp := (b - 0xE0) * 4096 + (c1 - 0x80) * 64 + (c2 - 0x80) in
            if continuation c1 && continuation c2 && (0x800 <=? cp)
            then cp :: decode r2
            else no_character :: decode r
        | _ => no_character :: decode r
        end
      else if (0xF0 <=? b) && (b <? 0xF5) then
        match r with
        | c1 :: c2 :: c3 :: r3 =>
            let cp := (b - 0xF0) * 262144 + (c1 - 0x80) * 4096
                      + (c2 - 0x80) * 64 + (c3 - 0x80) in
            if continuation c1 && continuation c2 && continuation c3
               && (0x10000 <=? cp) && (cp <=? 0x10FFFF)
            then cp :: decode r3
            else no_character :: decode r
        | _ => no_character :: decode r
        end
      else no_character :: decode r
  end.

(** White space beyond ASCII ([str.isspace]). *)
Definition unicode_space (cp : Z) : bool :=
  (cp =? 0x85) || (cp =? 0xA0) || (cp =? 0x1680)
  || ((0x2000 <=? cp) && (cp <=? 0x200A))
  || (cp =? 0x2028) || (cp =? 0x2029) || (cp =? 0x202F) || (cp =? 0x205F)
  || (cp =? 0x3000).

(** The runs of decimal digits beyond ASCII: first code point and length;
    within a run the digits count up from 0 and start over after 9. *)
Definition decimal_runs : list (Z * Z) :=
  [(0x660, 10); (0x6F0, 10); (0x7C0, 10); (0x966, 10); (0x9E6, 10);
   (0xA66, 10); (0xAE6, 10); (0xB66, 10); (0xBE6, 10); (0xC66, 10);
   (0xCE6, 10); (0xD66, 10); (0xDE6, 10); (0xE50, 10); (0xED0, 10);
   (0xF20, 10); (0x1040, 10); (0x1090, 10); (0x17E0, 10); (0x1810, 10);
   (0x1946, 10); (0x19D0, 10); (0x1A80, 10); (0x1A90, 10); (0x1B50, 10);
   (0x1BB0, 10); (0x1C40, 10); (0x1C50, 10); (0xA620, 10); (0xA8D0, 10);
   (0xA900, 10); (0xA9D0, 10); (0xA9F0, 10); (0xAA50, 10); (0xABF0, 10);
   (0xFF10, 10); (0x104A0, 10); (0x10D30, 10); (0x11066, 10);
   (0x110F0, 10); (0x11136, 10); (0x111D0, 10); (0x112F0, 10);
   (0x11450, 10); (0x114D0, 10); (0x11650, 10); (0x116C0, 10);
   (0x11730, 10); (0x118E0, 10); (0x11950, 10); (0x11C50, 10);
   (0x11D50, 10); (0x11DA0, 10); (0x16A60, 10); (0x16AC0, 10);
   (0x16B50, 10); (0x1D7CE, 50); (0x1E140, 10); (0x1E2F0, 10);
   (0x1E950, 10); (0x1FBF0, 10)].

Definition decimal_of (cp : Z) : option Z :=
  match find (fun run => (fst run <=? cp) && (cp <? fst run + snd run))
             decimal_runs with
  | Some run => Some ((cp - fst run) mod 10)
  | None => None
  end.

(** The ASCII text of a string that is not pure ASCII. *)
Fixpoint transform (s : list Z) : list Z :=
  match s with
  | [] => []
  | cp :: r =>
      if (0 <=? cp) && (cp <? 127) then cp :: transform r
      else if unicode_space cp then 32 :: transform r
      else
        match decimal_of cp with
        | Some d => (48 + d) :: transform r
        | None => [63]
        end
  end.

Definition to_ascii (s : list ascii) : list ascii :=
  let bytes := map byte s in
  if forallb (fun b => b <? 0x80) bytes then s
  else map char (transform (decode bytes)).

(** ASCII white space ([Py_ISSPACE]). *)
Definition is_space (c : ascii) : bool :=
  let n := byte c in
  ((9 <=? n) && (n <=? 13)) || (n =? 32).

Fixpoint lstrip (s : list ascii) : list ascii :=
  match s with
  | c :: s' => if is_space c then lstrip s' else s
  | [] => []
  end.

Definition strip (s : list ascii) : list ascii :=
  rev (lstrip (rev (lstrip s))).

Definition digit_of (c : ascii) : option Z :=
  let n := Z.of_nat (nat_of_ascii c) in
  if (48 <=? n) && (n <=? 57) then Some (n - 48) else None.

Definition lower (c : ascii) : ascii :=
  let n := nat_of_ascii c in
  if ((65 <=? n) && (n <=? 90))%nat then ascii_of_nat (n + 32) else c.

(** The rest of a digit part, [(["_"] digit)*]: value so far, number of
    digits so far, and what is left of the input. *)
Fixpoint digits_tail (acc count : Z) (s : list ascii) : Z * Z * list ascii :=
  match s with
  | c :: s' =>
      match digit_of c with
      | Some d => digits_tail (10 * acc + d) (count + 1) s'
      | None =>
          if Ascii.eqb c "_" then
            match s' with
            | c2 :: s'' =>
                match digit_of c2 with
                | Some d => digits_tail (10 * acc + d) (count + 1) s''
                | None => (acc, count, s)
                end
            | [] => (acc, count, s)
            end
          else (acc, count, s)
      end
  | [] => (acc, count, s)
  end.

(** [digitpart ::= digit (["_"] digit)*] at the front of the input. *)
Definition digitpart (s : list ascii) : option (Z * Z * list ascii) :=
  match s with
  | c :: s' =>
      match digit_of c with
      | Some d => Some (digits_tail d 1 s')
      | None => None
      end
  | [] => None
  end.

(** [exponent ::= ("e" | "E") ["+" | "-"] digitpart], optional. *)
Definition exponent (s : list ascii) : option (Z * list ascii) :=
  match s with
  | [] => Some (0, [])
  | c :: s' =>
      if Ascii.eqb (lower c) "e" then
        let '(neg, s'') :=
          match s' with
          | "-"%char :: r => (true, r)
          | "+"%char :: r => (false, r)
          | _ => (false, s')
          end in
        match digitpart s'' with
        | Some (v, _, r) => Some (if neg then - v else v, r)
        | None => None
        end
      else None
  end.

(** A float literal without sign as mantissa and power of ten:
    [digitpart ["." [digitpart]] [exponent]] or
    ["." digitpart [exponent]], with nothing left over. *)
Definition number (s : list ascii) : option (Z * Z) :=
  let finish (m nfrac : Z) (r : list ascii) :=
    match exponent r with
    | Some (e, []) => Some (m, e - nfrac)
    | _ => None
    end in
  match digitpart s with
  | Some (ip, _, "."%char :: r) =>
      match digitpart r with
      | Some (fp, n, r') => finish (ip * 10 ^ n + fp) n r'
      | None => finish ip 0 r
      end
  | Some (ip, _, r) => finish ip 0 r
  | None =>
      match s with
      | "."%char :: r =>
          match digitpart r with
          | Some (fp, n, r') => finish fp n r'
          | None => None
          end
      | _ => None
      end
  end.

(** The double nearest to [m * 10 ^ e10], for [0 <= m].  A negative power
    of ten is divided out with 62 or more quotient bits and a sticky bit
    for the remainder, so the single rounding sees the exact value. *)
Definition of_decimal (m e10 : Z) : spec_float :=
  if m =? 0 then S754_zero false
  else if 0 <=? e10 then binary_normalize prec emax (m * 10 ^ e10) 0 false
  else
    let d := 10 ^ (- e10) in
    let s := Z.max 0 (62 + Z.log2 d - Z.log2 m) in
    let n := m * 2 ^ s in
    let sticky := if n mod d =? 0 then 0 else 1 in
    binary_normalize prec emax (2 * (n / d) + sticky) (- (s + 1)) false.

Definition unsigned_literal (s : list ascii) : option spec_float :=
  let name := String.string_of_list_ascii (map lower s) in
  if bool_decide (name = "inf") || bool_decide (name = "infinity")
  then Some (S754_infinity false)
  else if bool_decide (name = "nan") then Some S754_nan
  else
    match number s with
    | Some (m, e10) => Some (of_decimal m e10)
    | None => None
    end.

(** [float(s)] for a string: surrounding whitespace is dropped, then an
    optional sign, then the literal. *)
Definition of_string (s : string) : outcome float :=
  let body := strip (to_ascii (String.list_ascii_of_string s)) in
  let '(neg, rest) :=
    match body with
    | "-"%char :: r => (true, r)
    | "+"%char :: r => (false, r)
    | _ => (false, body)
    end in
  match unsigned_literal rest with
  | Some f => Ret (SF2Prim (if neg then SFopp f else f))
  | None => Raise ValueError
  end.

(** [float(n)] for an int: [OverflowError] when [n] is too large. *)
Definition of_int (n : Z) : outcome float :=
  match binary_normalize prec emax n 0 false with
  | S754_infinity _ => Raise OverflowError
  | f => Ret (SF2Prim f)
  end.

End PyFloat.

Definition py_float (v : value) : outcome float :=
  match v with
  | VFloat f => Ret f
  | VInt n => PyFloat.of_int n
  | VBool b => PyFloat.of_int (Z.b2z b)
  | VStr s => PyFloat.of_string s
  | VNone | VEnum _ | VList _ | VDict _ => Raise TypeError
  end.

(** *** Decimal literals and sample conversions *)

(** The text of a list of digits, each from 0 to 9, and the number it
    spells. *)
Definition digit_char (d : Z) : ascii := PyFloat.char (48 + d).

Definition digits_text (ds : list Z) : list ascii := map digit_char ds.

Definition digits_number (ds : list Z) : Z :=
  fold_left (fun acc d => 10 * acc + d) ds 0.

Definition is_digits (ds : list Z) : Prop :=
  Forall (fun d => 0 <= d <= 9) ds.

(** The literal [whole.fraction], as in ["12.5"]. *)
Definition decimal_literal (whole fraction : list Z) : string :=
  String.string_of_list_ascii
    (digits_text whole ++ "."%char :: digits_text fraction).

(** Strings and the doubles CPython's [float] makes of them: exact and
    inexact decimals, a tie, the smallest and the largest double, the
    limits of the subnormal range, signs, exponents, underscores, white
    space, digits and white space beyond ASCII, infinities. *)
Definition float_samples : list (string * float) :=
  [("12.5", 0x1.9p+3%float);
   ("0.1", 0x1.999999999999ap-4%float);
   ("1e23", 0x1.52d02c7e14af6p+76%float);
   ("9007199254740993", 0x1p+53%float);
   ("0.30000000000000004", 0x1.3333333333334p-2%float);
   ("4.9e-324", 0x0.0000000000001p-1022%float);
   ("2.4703282292062328e-324", 0x0.0000000000001p-1022%float);
   ("2.4703282292062327e-324", 0%float);
   ("1.7976931348623157e308", 0x1.fffffffffffffp+1023%float);
   ("2.2250738585072011e-308", 0x0.fffffffffffffp-1022%float);
   (String "009" (String " " (String "012" "12.5")), 0x1.9p+3%float);
   ("12.5 ", 0x1.9p+3%float);
   ("-12.5", (-0x1.9p+3)%float);
   ("+.5e1", 0x1.4p+2%float);
   ("5.", 0x1.4p+2%float);
   ("1_000.25", 0x1.f42p+9%float);
   ("1E-2", 0x1.47ae147ae147bp-7%float);
   ("١٢.٥", 0x1.9p+3%float);
   (" 12.5　", 0x1.9p+3%float);
   ("-0.0", (-0)%float);
   ("inf", infinity);
   ("-Infinity", neg_infinity);
   ("1e400", infinity);
   ("nan", nan)].

(** Strings for which CPython's [float] raises [ValueError]; among them
    text framed by the separator characters 28 to 31, which [str.strip]
    removes and [float] does not. *)
Definition float_rejects : list string :=
  [""; " "; "abc"; "12,5"; "1__0"; "_1"; "1_"; "0x10"; "1e"; "."; "--1";
   "1 2"; "１２．５"; "½"; "12.5é";
   String "028" "12.5"; String "031" "12.5";
   String "1" (String "029" EmptyString);
   String "1" (String "000" EmptyString)].

(** Ints and the doubles CPython's [float] makes of them. *)
Definition int_samples : list (Z * float) :=
  [(0, 0%float); (1, 0x1p+0%float); (-1, (-0x1p+0)%float);
   (9007199254740992, 0x1p+53%float);
   (9007199254740993, 0x1p+53%float);
   (9007199254740995, 0x1.0000000000002p+53%float);
   (-9007199254740993, (-0x1p+53)%float);
   (10 ^ 22, 0x1.0f0cf064dd592p+73%float);
   (10 ^ 23, 0x1.52d02c7e14af6p+76%float);
   (2 ^ 1024 - 2 ^ 970 - 1, 0x1.fffffffffffffp+1023%float)].

(** ** client.py *)

Record Async2Captcha := {
  api_key : string;
  session : HTTPSession
}.

(** [Async2Captcha.__init__]: the session is bound to the service URL and
    carries the key as [clientKey] in its default body.  [net] is the remote
    end the session talks to. *)
Definition Async2Captcha_init
    (net : list event -> string -> option dict -> outcome dict)
    (key : string) : Async2Captcha :=
  {| api_key := key;
     session := {| base_url := "https://api.2captcha.com";
                   default_json := {[ "clientKey" := VStr key ]};
                   transport := net |} |}.

(** ** running_task.py *)

Record RunningTask := {
  client : Async2Captcha;
  task : Task
}.

(** [RunningTask.__init__(client, task_data)]. *)
Definition RunningTask_init (cl : Async2Captcha) (task_data : dict)
    : M RunningTask :=
  let* t := lift (Task_model_validate task_data) in
  ret {| client := cl; task := t |}.

(** [Async2Captcha.create_task(type, payload)]: [payload] is a reference to
    the caller's dictionary; the posted body holds it under ["task"]. *)
Definition create_task (self : Async2Captcha) (type : TaskType)
    (payload : loc) : M RunningTask :=
  let* _ := dict_setitem payload "type" (VEnum type) in
  let* body := deref payload in
  let* data := HTTPSession_post (session self) "/createTask"
                 (Some {[ "task" := VDict body ]}) in
  RunningTask_init self data.

(** [Async2Captcha.get_task_result(task_id)]. *)
Definition get_task_result (self : Async2Captcha) (tid : option Z) : M Task :=
  let* data := HTTPSession_post (session self) "/getTaskResult"
                 (Some {[ "taskId" := of_opt_int tid ]}) in
  let* t := lift (Task_model_validate data) in
  ret t.

(** [Async2Captcha.get_balance()]. *)
Definition get_balance (self : Async2Captcha) : M float :=
  let* data := HTTPSession_post (session self) "/getTaskResult" None in
  let* balance := dict_getitem data "balance" in
  lift (py_float balance).

(** One turn of the [while True] loop of [wait_until_completed]:
    [Some task] is [return task], [None] falls through to the next turn. *)
Definition poll_once (self : RunningTask) : M (option Task) :=
  let* t := get_task_result (client self) (task_id (task self)) in
  if is_ready t then ret (Some t)
  else
    let* _ := (if is_processing t then ret tt else ret tt) in
    let* _ := sleep 10 in
    ret None.

(** [RunningTask.wait_until_completed()], at most [fuel] turns of the loop;
    [None] means the loop is still running after [fuel] turns. *)
Fixpoint wait_until_completed (fuel : nat) (self : RunningTask) (w : world)
    : option (outcome Task * world) :=
  match fuel with
  | O => None
  | S fuel' =>
      match poll_once self w with
      | (Ret (Some t), w') => Some (Ret t, w')
      | (Ret None, w') => wait_until_completed fuel' self w'
      | (Raise e, w') => Some (Raise e, w')
      end
  end.

(** ** solvers/base.py and solvers/coordinates.py *)

Record SolverBase := {
  solver_client : Async2Captcha
}.

Record CoordinatesSolution := {
  coordinates : list (gmap string Z)
}.

Abbreviation CoordinatesTask := (TaskModel CoordinatesSolution).

(** The fields of [CoordinatesSolution] are validated by pydantic in its
    default, lax mode, which converts some values that are no [int].  What
    holds for every version 2 of the library is fixed here: an int is
    taken as it is, a bool as 0 or 1, a float without fractional part and
    below [2^63] in size as that integer, a short string of ASCII digits
    with an optional sign as the number it spells; a float with a
    fractional part, an infinity, a NaN, [None], a list and a mapping are
    rejected.  The remaining inputs (other strings, larger floats, enum
    members) are converted or rejected differently by different versions
    of the library: they are left to [lax_int], the conversion of the
    installed library, a parameter of the validation. *)
Inductive coercion :=
| Accept (z : Z)
| Reject
| Defer.

Definition float_as_int (f : float) : coercion :=
  match Prim2SF f with
  | S754_zero _ => Accept 0
  | S754_infinity _ | S754_nan => Reject
  | S754_finite sign m e =>
      if (e <? 0) && negb (Z.pos m mod 2 ^ (- e) =? 0) then Reject
      else
        let size := if e <? 0 then Z.pos m / 2 ^ (- e) else Z.pos m * 2 ^ e in
        if size <? 2 ^ 63 then Accept (if sign then - size else size)
        else Defer
  end.

Fixpoint digits_value (acc : Z) (s : list ascii) : option Z :=
  match s with
  | [] => Some acc
  | c :: r =>
      match PyFloat.digit_of c with
      | Some d => digits_value (10 * acc + d) r
      | None => None
      end
  end.

(** A string of at most 18 bytes that is one or more ASCII digits after
    an optional sign. *)
Definition plain_int (s : string) : option Z :=
  let text := String.list_ascii_of_string s in
  let '(negative, digits) :=
    match text with
    | "-"%char :: r => (true, r)
    | "+"%char :: r => (false, r)
    | _ => (false, text)
    end in
  match digits with
  | [] => None
  | _ =>
      if (length text <=? 18)%nat then
        match digits_value 0 digits with
        | Some n => Some (if negative then - n else n)
        | None => None
        end
      else None
  end.

Definition known_int (v : value) : coercion :=
  match v with
  | VInt z => Accept z
  | VBool b => Accept (Z.b2z b)
  | VFloat f => float_as_int f
  | VStr s =>
      match plain_int s with
      | Some z => Accept z
      | None => Defer
      end
  | VNone | VList _ | VDict _ => Reject
  | VEnum _ => Defer
  end.

Section Validation.

Context (lax_int : value -> option Z).

(** The lax validation of an [int]. *)
Definition int_of (v : value) : option Z :=
  match known_int v with
  | Accept z => Some z
  | Reject => None
  | Defer => lax_int v
  end.

(** [Dict[str, int]]. *)
Definition validate_point (v : value) : outcome (gmap string Z) :=
  match v with
  | VDict d =>
      if decide (map_Forall (fun _ x => is_Some (int_of x)) d)
      then Ret (omap int_of d)
      else Raise (ValidationError "CoordinatesSolution" "coordinates")
  | _ => Raise (ValidationError "CoordinatesSolution" "coordinates")
  end.

Fixpoint validate_each {A} (validate : value -> outcome A) (l : list value)
    : outcome (list A) :=
  match l with
  | [] => Ret []
  | v :: l' =>
      try a := validate v in
      try r := validate_each validate l' in
      Ret (a :: r)
  end.

(** [List[Dict[str, int]]]. *)
Definition validate_points (v : value) : outcome (list (gmap string Z)) :=
  match v with
  | VList l => validate_each validate_point l
  | _ => Raise (ValidationError "CoordinatesSolution" "coordinates")
  end.

(** [CoordinatesSolution]: the field [coordinates] is required
    ([Field(...)]); its wire name equals its name. *)
Definition validate_CoordinatesSolution (v : value)
    : outcome CoordinatesSolution :=
  match v with
  | VDict d =>
      try cs := validate_required "CoordinatesSolution" "coordinates"
                  validate_points (d !! CamelCase.to_camel "coordinates") in
      Ret {| coordinates := cs |}
  | _ => Raise (ValidationError "CoordinatesTask" "solution")
  end.

(** The constructor [CoordinatesTask] applied to keyword arguments: the
    fields of Task, taken by field name as [model_dump()] emits them, with [solution] validated as an optional
    [CoordinatesSolution]. *)
Definition CoordinatesTask_init (kwargs : dict) : outcome CoordinatesTask :=
  TaskModel_validate "CoordinatesTask" id validate_CoordinatesSolution kwargs.

(** [if comment:] on an [Optional[str]]. *)
Definition truthy (o : option string) : bool :=
  match o with
  | Some s => negb (String.eqb s "")
  | None => false
  end.

(** [if min_clicks is not None:]. *)
Definition is_not_None {A} (o : option A) : bool :=
  match o with Some _ => true | None => false end.

(** The payload [CoordinatesSolver.create_task] assembles before it hands
    it to the client (lines 83 to 93). *)
Definition coordinates_payload (body : string)
    (comment img_instructions : option string)
    (min_clicks max_clicks : option Z) : dict :=
  let payload := {[ "body" := VStr body ]} in
  let payload :=
    if truthy comment
    then <[ "comment" := of_opt_str comment ]> payload else payload in
  let payload :=
    if truthy img_instructions
    then <[ "imgInstructions" := of_opt_str img_instructions ]> payload
    else payload in
  let payload :=
    if is_not_None min_clicks
    then <[ "minClicks" := of_opt_int min_clicks ]> payload else payload in
  let payload :=
    if is_not_None max_clicks
    then <[ "maxClicks" := of_opt_int max_clicks ]> payload else payload in
  payload.

(** The last line of [CoordinatesSolver.create_task]: the constructor
    [CoordinatesTask] applied to the unpacked [completed_task.model_dump()]. *)
Definition reproject (completed_task : Task) : outcome CoordinatesTask :=
  CoordinatesTask_init (Task_model_dump completed_task).

(** The first half of [CoordinatesSolver.create_task] (lines 83 to 96):
    the payload becomes a new dictionary, which is handed to the client. *)
Definition CoordinatesSolver_submit (self : SolverBase)
    (body : string) (comment img_instructions : option string)
    (min_clicks max_clicks : option Z) : M RunningTask :=
  let* payload := new_dict (coordinates_payload body comment
                              img_instructions min_clicks max_clicks) in
  create_task (solver_client self) COORDINATES payload.

(** [CoordinatesSolver.create_task(body, comment, img_instructions,
    min_clicks, max_clicks)], with [fuel] turns for the poll loop. *)
Definition CoordinatesSolver_create_task (fuel : nat) (self : SolverBase)
    (body : string) (comment img_instructions : option string)
    (min_clicks max_clicks : option Z) (w : world)
    : option (outcome CoordinatesTask * world) :=
  match CoordinatesSolver_submit self body comment img_instructions
          min_clicks max_clicks w with
  | (Raise e, w1) => Some (Raise e, w1)
  | (Ret running, w1) =>
      match wait_until_completed fuel running w1 with
      | None => None
      | Some (Raise e, w2) => Some (Raise e, w2)
      | Some (Ret completed_task, w2) => Some (reproject completed_task, w2)
      end
  end.

End Validation.

(** ** Vocabulary for the poll loop *)

(** The request every turn of the loop posts. *)
Definition poll_request (self : RunningTask) : event :=
  EvPost "/getTaskResult" (Some {[ "taskId" := of_opt_int (task_id (task self)) ]}).

(** The world after one turn that did not return: one post, one sleep of
    10. *)
Definition next_turn (self : RunningTask) (w : world) : world :=
  log_event (EvSleep 10) (log_event (poll_request self) w).

(** The world in which turn number [k] (counted from 0) starts. *)
Fixpoint after_polls (self : RunningTask) (k : nat) (w : world) : world :=
  match k with
  | O => w
  | S k' => after_polls self k' (next_turn self w)
  end.

(** What [get_task_result] answers in a given world. *)
Definition poll_answer (self : RunningTask) (w : world) : outcome Task :=
  fst (get_task_result (client self) (task_id (task self)) w).

(** Turn [k] of the loop ends it: [get_task_result] raises there or returns
    a ready Task. *)
Definition terminal_at (self : RunningTask) (w : world) (k : nat) : Prop :=
  match poll_answer self (after_polls self k w) with
  | Ret t => is_ready t = true
  | Raise _ => True
  end.

(** The events of [n] turns that did not return. *)
Definition idle_turns (self : RunningTask) (n : nat) : list event :=
  concat (replicate n [poll_request self; EvSleep 10]).

Definition is_post (ev : event) : bool :=
  match ev with EvPost _ _ => true | EvSleep _ => false end.

(** Number of round trips in a stretch of the trace. *)
Definition posts (evs : list event) : nat :=
  length (filter (fun ev => is_post ev = true) evs).

(** Time slept in a stretch of the trace. *)
Fixpoint slept (evs : list event) : Z :=
  match evs with
  | [] => 0
  | EvSleep d :: evs' => d + slept evs'
  | EvPost _ _ :: evs' => slept evs'
  end.

(** ** Vocabulary for the typed result *)





(** ** Transport stubs and sample values *)

Module Stubs.

Definition processing_body : dict :=
  {[ "errorId" := VInt 0; "status" := VStr "processing" ]}.

Definition ready_body : dict :=
  {[ "errorId" := VInt 0; "status" := VStr "ready";
     "solution" := VDict {[ "coordinates" :=
        VList [VDict {[ "x" := VInt 10; "y" := VInt 20 ]}] ]} ]}.

Definition created_body : dict :=
  {[ "errorId" := VInt 0; "taskId" := VInt 42; "status" := VStr "processing" ]}.

(** [/createTask] answers with task 42; [/getTaskResult] answers
    [processing] while fewer than [n] round trips have been made and
    [ready] afterwards; without a body it answers with a balance. *)
Definition slow (n : nat) (balance : value)
    (history : list event) (path : string) (json : option dict)
    : outcome dict :=
  if String.eqb path "/createTask" then Ret created_body
  else
    match json with
    | None => Ret {[ "errorId" := VInt 0; "balance" := balance ]}
    | Some _ =>
        if (posts history <? n)%nat then Ret processing_body
        else Ret ready_body
    end.

(** The service refuses every request with error 12. *)
Definition refusing (history : list event) (path : string)
    (json : option dict) : outcome dict :=
  Raise (TwoCaptchaError 12 "ERROR_CAPTCHA_UNSOLVABLE" "unsolvable").

(** The second poll fails with error 12. *)
Definition failing_later (history : list event) (path : string)
    (json : option dict) : outcome dict :=
  if (posts history <? 1)%nat then Ret processing_body
  else Raise (TwoCaptchaError 12 "ERROR_CAPTCHA_UNSOLVABLE" "unsolvable").

Definition empty_world : world := World ∅ [].

(** A world in which the caller owns one payload dictionary, at 1. *)
Definition caller_payload : dict :=
  {[ "body" := VStr "aGVsbG8="; "minClicks" := VInt 1 ]}.

Definition caller_world : world := World {[ 1%positive := caller_payload ]} [].

Definition running (net : list event -> string -> option dict -> outcome dict)
    : RunningTask :=
  {| client := Async2Captcha_init net "key";
     task := {| task_id := Some 42; error_id := 0; error_code := None;
                error_description := None; status := Some "processing";
                solution := None |} |}.

(** A ready Task whose solution has another solver's shape. *)
Definition token_task : Task :=
  {| task_id := Some 42; error_id := 0; error_code := None;
     error_description := None; status := Some "ready";
     solution := Some (VDict {[ "token" := VStr "0.abc" ]}) |}.

Definition clicked : CoordinatesSolution :=
  {| coordinates := [ {[ "x" := 10; "y" := 20 ]} ] |}.

End Stubs.

(** ** The solvers of a client, and further stubs *)

(** [SolverBase.__init__(client)] (solvers/base.py): the solver keeps the
    client it was given. *)
Definition SolverBase_init (cl : Async2Captcha) : SolverBase :=
  {| solver_client := cl |}.

(** The attribute [coordinates] that [Async2Captcha.__init__] sets:
    [CoordinatesSolver(self)]. *)
Definition client_coordinates (self : Async2Captcha) : SolverBase :=
  SolverBase_init self.

Module MoreStubs.

(** A remote end that gives the same outcome to every request. *)
Definition always (answer : outcome dict)
    (history : list event) (path : string) (json : option dict)
    : outcome dict :=
  answer.

(** A task state with an error, handed back as a value instead of being
    raised. *)
Definition errored_body : dict :=
  {[ "errorId" := VInt 12; "errorCode" := VStr "ERROR_CAPTCHA_UNSOLVABLE";
     "status" := VStr "ready" ]}.

(** A library that converts nothing beyond what every version converts. *)
Definition no_more (v : value) : option Z := None.

(** A world in which the caller owns two dictionaries. *)
Definition crowded_world : world :=
  World {[ 1%positive := Stubs.caller_payload;
           2%positive := {[ "note" := VStr "keep" ]} ]} [].

End MoreStubs.

(** * Properties *)

(** The whole solver on a stub that answers the first poll with
    [processing] and the second with [ready] and one clicked point: the
    typed result is ready and holds the point, after three round trips
    (one to create, two to poll) and one sleep of 10. *)
Example coordinates_solver_end_to_end :
  let self := {| solver_client := Async2Captcha_init (Stubs.slow 2 VNone) "key" |} in
  exists typed w',
    CoordinatesSolver_create_task MoreStubs.no_more 2 self "aGVsbG8=" None None (Some 1) None
      Stubs.empty_world = Some (Ret typed, w') /\
    is_ready typed = true /\
    solution typed = Some Stubs.clicked /\
    posts (trace w') = 3%nat /\
    slept (trace w') = 10.
Proof.
  intros self. eexists. eexists.
  split; [vm_compute; reflexivity|].
  repeat split; vm_compute; reflexivity.
Qed.

(** ** How the client operations run *)

Section Runs.

Context (self : Async2Captcha).

(** [get_task_result] is one round trip followed by the parse. *)
Lemma get_task_result_run (tid : option Z) (w : world) :
  get_task_result self tid w =
    (obind (transport (session self) (trace w) "/getTaskResult"
              (Some {[ "taskId" := of_opt_int tid ]}))
           Task_model_validate,
     log_event (EvPost "/getTaskResult"
                  (Some {[ "taskId" := of_opt_int tid ]})) w).
Proof.
  unfold get_task_result, bind, HTTPSession_post, lift, ret.
  destruct (transport _ _ _ _) as [data|e]; cbn [obind]; [|reflexivity].
  destruct (Task_model_validate data); reflexivity.
Qed.

(** [create_task] on an allocated payload: the store is updated first,
    then comes one round trip and the construction of the handle. *)
Lemma create_task_run (type : TaskType) (payload : loc) (w : world) (d : dict) :
  heap w !! payload = Some d ->
  let d' := <[ "type" := VEnum type ]> d in
  let json := Some {[ "task" := VDict d' ]} in
  create_task self type payload w =
    (try data := transport (session self) (trace w) "/createTask" json in
     try t := Task_model_validate data in
     Ret {| client := self; task := t |},
     World (<[ payload := d' ]> (heap w))
           (trace w ++ [EvPost "/createTask" json])).
Proof.
  intros Hd d' json.
  unfold create_task, bind, dict_setitem, deref, HTTPSession_post,
    RunningTask_init, lift, ret.
  rewrite Hd. cbn [set_heap heap trace].
  rewrite lookup_insert_eq. cbn [heap trace log_event].
  fold d'. fold json.
  destruct (transport _ _ _ _) as [data|e]; cbn [obind]; [|reflexivity].
  destruct (Task_model_validate data); reflexivity.
Qed.

(** [get_balance] is one round trip without body, a lookup and the
    coercion. *)
Lemma get_balance_run (w : world) :
  get_balance self w =
    (try data := transport (session self) (trace w) "/getTaskResult" None in
     match data !! "balance" with
     | Some v => py_float v
     | None => Raise (KeyError "balance")
     end,
     log_event (EvPost "/getTaskResult" None) w).
Proof.
  unfold get_balance, bind, HTTPSession_post, dict_getitem, lift.
  destruct (transport _ _ _ _) as [data|e]; cbn [obind]; [|reflexivity].
  destruct (data !! "balance") as [v|]; cbn; [|reflexivity].
  destruct (py_float v); reflexivity.
Qed.

End Runs.

(** ** The poll loop *)

Section PollLoop.

Context (self : RunningTask).

Lemma poll_once_run (w : world) :
  poll_once self w =
    match poll_answer self w with
    | Ret t =>
        if is_ready t then (Ret (Some t), log_event (poll_request self) w)
        else (Ret None, next_turn self w)
    | Raise e => (Raise e, log_event (poll_request self) w)
    end.
Proof.
  unfold poll_once, poll_answer, bind.
  rewrite get_task_result_run. cbn [fst].
  fold (poll_request self).
  destruct (obind _ _) as [t|e]; [|reflexivity].
  destruct (is_ready t); [reflexivity|].
  unfold next_turn, sleep, ret. destruct (is_processing t); reflexivity.
Qed.

(** One unfolding of the loop. *)
Lemma wait_until_completed_S (fuel : nat) (w : world) :
  wait_until_completed (S fuel) self w =
    match poll_answer self w with
    | Ret t =>
        if is_ready t then Some (Ret t, log_event (poll_request self) w)
        else wait_until_completed fuel self (next_turn self w)
    | Raise e => Some (Raise e, log_event (poll_request self) w)
    end.
Proof.
  cbn [wait_until_completed]. rewrite poll_once_run.
  destruct (poll_answer self w) as [t|e]; [|reflexivity].
  destruct (is_ready t); reflexivity.
Qed.

Lemma after_polls_S (k : nat) (w : world) :
  after_polls self (S k) w = next_turn self (after_polls self k w).
Proof.
  revert w. induction k as [|k IH]; intros w; [reflexivity|].
  change (after_polls self (S (S k)) w)
    with (after_polls self (S k) (next_turn self w)).
  rewrite IH. reflexivity.
Qed.

Lemma after_polls_trace (k : nat) (w : world) :
  trace (after_polls self k w) = trace w ++ idle_turns self k.
Proof.
  revert w. induction k as [|k IH]; intros w.
  - cbn. rewrite app_nil_r. reflexivity.
  - cbn [after_polls]. rewrite IH. unfold idle_turns.
    cbn [replicate concat next_turn log_event trace].
    rewrite <- !app_assoc. reflexivity.
Qed.

Lemma after_polls_heap (k : nat) (w : world) :
  heap (after_polls self k w) = heap w.
Proof.
  revert w. induction k as [|k IH]; intros w; [reflexivity|].
  cbn [after_polls]. rewrite IH. reflexivity.
Qed.

(** More fuel does not change a result. *)
Lemma wait_until_completed_mono (fuel fuel' : nat) (w : world) r :
  wait_until_completed fuel self w = Some r ->
  (fuel <= fuel')%nat ->
  wait_until_completed fuel' self w = Some r.
Proof.
  revert fuel' w. induction fuel as [|fuel IH]; intros fuel' w Hrun Hle.
  - discriminate.
  - destruct fuel' as [|fuel']; [lia|].
    rewrite wait_until_completed_S in Hrun |- *.
    destruct (poll_answer self w) as [t|e]; [|assumption].
    destruct (is_ready t); [assumption|].
    apply IH; [assumption|lia].
Qed.

(** The loop has at most one result. *)
Lemma wait_until_completed_functional (f1 f2 : nat) (w : world) r1 r2 :
  wait_until_completed f1 self w = Some r1 ->
  wait_until_completed f2 self w = Some r2 ->
  r1 = r2.
Proof.
  intros H1 H2.
  apply wait_until_completed_mono with (fuel' := (f1 `max` f2)%nat) in H1; [|lia].
  apply wait_until_completed_mono with (fuel' := (f1 `max` f2)%nat) in H2; [|lia].
  congruence.
Qed.

(** Whatever the loop produces is the answer of the last poll, and it is
    terminal: that poll raised or returned a ready Task. *)
Lemma wait_until_completed_sound (fuel : nat) (w : world) r w' :
  wait_until_completed fuel self w = Some (r, w') ->
  exists k, (k < fuel)%nat /\
    poll_answer self (after_polls self k w) = r /\
    w' = log_event (poll_request self) (after_polls self k w) /\
    match r with Ret t => is_ready t = true | Raise _ => True end.
Proof.
  revert w. induction fuel as [|fuel IH]; intros w Hrun; [discriminate|].
  rewrite wait_until_completed_S in Hrun.
  destruct (poll_answer self w) as [t|e] eqn:Hans.
  - destruct (is_ready t) eqn:Hready.
    + inversion Hrun; subst. exists 0%nat. cbn [after_polls].
      repeat split; [lia|assumption|assumption].
    + destruct (IH _ Hrun) as (k & Hk & Ha & Hw & Ht).
      exists (S k). cbn [after_polls]. repeat split; [lia|assumption..].
  - inversion Hrun; subst. exists 0%nat. cbn [after_polls].
    repeat split; [lia|assumption].
Qed.

(** If some turn is terminal, the loop stops at the latest there. *)
Lemma wait_until_completed_stops (k : nat) (w : world) :
  terminal_at self w k ->
  exists r w', wait_until_completed (S k) self w = Some (r, w').
Proof.
  revert w. induction k as [|k IH]; intros w Hterm.
  - unfold terminal_at in Hterm. cbn [after_polls] in Hterm.
    rewrite wait_until_completed_S.
    destruct (poll_answer self w) as [t|e]; [|eauto].
    rewrite Hterm. eauto.
  - rewrite wait_until_completed_S.
    destruct (poll_answer self w) as [t|e]; [|eauto].
    destruct (is_ready t); [eauto|].
    apply IH. exact Hterm.
Qed.

(** The loop stops exactly at the first terminal turn. *)
Lemma wait_until_completed_first (n : nat) (w : world) r :
  (forall j, (j < n)%nat ->
     exists t, poll_answer self (after_polls self j w) = Ret t /\
               is_ready t = false) ->
  poll_answer self (after_polls self n w) = r ->
  match r with Ret t => is_ready t = true | Raise _ => True end ->
  wait_until_completed (S n) self w
    = Some (r, log_event (poll_request self) (after_polls self n w)) /\
  wait_until_completed n self w = None.
Proof.
  revert w. induction n as [|n IH]; intros w Hidle Hans Hterm.
  - cbn [after_polls] in *. rewrite wait_until_completed_S, Hans.
    split; [|reflexivity].
    destruct r as [t|e]; [rewrite Hterm|]; reflexivity.
  - destruct (Hidle 0%nat ltac:(lia)) as (t0 & H0 & Hr0).
    cbn [after_polls] in H0.
    assert (Hidle' : forall j, (j < n)%nat ->
              exists t, poll_answer self (after_polls self j (next_turn self w)) = Ret t /\
                        is_ready t = false).
    { intros j Hj. apply (Hidle (S j)). lia. }
    destruct (IH (next_turn self w) Hidle' Hans Hterm) as [Hrun Hnone].
    cbn [after_polls].
    split; rewrite wait_until_completed_S, H0, Hr0; assumption.
Qed.

End PollLoop.

(** ** The terminal-state predicates *)

Section Predicates.

Context {Sol : Type} (t : TaskModel Sol).

Lemma status_is_spec (s : string) :
  status_is t s = true <-> status t = Some s.
Proof.
  unfold status_is. destruct (status t) as [s'|].
  - rewrite bool_decide_eq_true. split; congruence.
  - split; discriminate.
Qed.

Lemma is_ready_spec :
  is_ready t = true <-> error_id t = 0 /\ status t = Some "ready".
Proof.
  unfold is_ready.
  rewrite andb_true_iff, Z.eqb_eq, status_is_spec. reflexivity.
Qed.

Lemma is_processing_spec :
  is_processing t = true <-> error_id t = 0 /\ status t = Some "processing".
Proof.
  unfold is_processing.
  rewrite andb_true_iff, Z.eqb_eq, status_is_spec. reflexivity.
Qed.

Lemma is_error_spec : is_error t = true <-> error_id t <> 0.
Proof.
  unfold is_error. rewrite negb_true_iff, Z.eqb_neq. reflexivity.
Qed.

Lemma is_processing_not_ready :
  is_processing t = true -> is_ready t = false.
Proof.
  intros Hp. apply is_processing_spec in Hp as [_ Hs].
  apply not_true_is_false. intros Hr.
  apply is_ready_spec in Hr as [_ Hs']. congruence.
Qed.

Lemma is_ready_not_error : is_ready t = true -> is_error t = false.
Proof.
  intros Hr. apply is_ready_spec in Hr as [He _].
  unfold is_error. rewrite He. reflexivity.
Qed.

End Predicates.

(** C4.  For every Task value, [is_ready] holds exactly when [error_id] is
    0 and [status] is ["ready"], [is_processing] exactly when [error_id] is
    0 and [status] is ["processing"]; with a nonzero [error_id] both are
    false whatever the status; so of the three states errored, processing
    and ready no two hold together. *)
Theorem task_states_exclusive {Sol : Type} (t : TaskModel Sol) :
  (is_ready t = true <-> error_id t = 0 /\ status t = Some "ready") /\
  (is_processing t = true <-> error_id t = 0 /\ status t = Some "processing") /\
  (error_id t <> 0 -> is_ready t = false /\ is_processing t = false) /\
  (is_error t = true <-> error_id t <> 0) /\
  ~ (is_ready t = true /\ is_processing t = true) /\
  ~ (is_error t = true /\ is_ready t = true) /\
  ~ (is_error t = true /\ is_processing t = true).
Proof.
  split; [apply is_ready_spec|].
  split; [apply is_processing_spec|].
  split.
  { intros Hne. split; apply not_true_is_false; intros H.
    - apply is_ready_spec in H as [H _]. contradiction.
    - apply is_processing_spec in H as [H _]. contradiction. }
  split; [apply is_error_spec|].
  split.
  { intros [Hr Hp]. apply is_processing_not_ready in Hp. congruence. }
  split.
  - intros [He Hr]. apply is_ready_not_error in Hr. congruence.
  - intros [He Hp]. apply is_error_spec in He.
    apply is_processing_spec in Hp as [Hp _]. contradiction.
Qed.

(** A Task with error 12 and status ["ready"] is neither ready nor
    processing. *)
Lemma task_states_exclusive_witness :
  let t : Task :=
    {| task_id := Some 42; error_id := 12;
       error_code := Some "ERROR_CAPTCHA_UNSOLVABLE";
       error_description := None; status := Some "ready";
       solution := None |} in
  is_ready t = false /\ is_processing t = false.
Proof.
  intros t.
  apply (proj1 (proj2 (proj2 (task_states_exclusive t)))).
  simpl. lia.
Defined.

(** ** C1 and C2: the loop stops with a terminal value *)

(** C1.  When some turn of the poll loop is terminal ([get_task_result]
    raises or returns a ready Task), [wait_until_completed] produces a
    value, with at most [k + 1] polls if turn [k] is terminal; it produces
    no second, different value; a returned Task is ready (not processing,
    not errored); and the value, returned or raised, is the one the last
    [get_task_result] call produced, together with its final world. *)
Theorem wait_until_completed_terminal (self : RunningTask) (w : world) (k : nat) :
  terminal_at self w k ->
  exists r w',
    (exists fuel, (fuel <= S k)%nat /\
       wait_until_completed fuel self w = Some (r, w')) /\
    (forall fuel r2 w2,
       wait_until_completed fuel self w = Some (r2, w2) -> r2 = r /\ w2 = w') /\
    match r with
    | Ret t => is_ready t = true /\ is_processing t = false /\ is_error t = false
    | Raise _ => True
    end /\
    exists w0, get_task_result (client self) (task_id (task self)) w0 = (r, w').
Proof.
  intros Hterm.
  destruct (wait_until_completed_stops self k w Hterm) as (r & w' & Hrun).
  exists r, w'. split; [exists (S k); split; [lia|assumption]|].
  split.
  { intros fuel r2 w2 Hrun2.
    pose proof (wait_until_completed_functional self _ _ _ _ _ Hrun2 Hrun) as E.
    inversion E. split; reflexivity. }
  destruct (wait_until_completed_sound self _ _ _ _ Hrun)
    as (j & _ & Hans & Hw & Hr).
  split.
  - destruct r as [t|e]; [|exact I].
    split; [assumption|]. split.
    + destruct (is_processing t) eqn:Hp; [|reflexivity].
      apply is_processing_not_ready in Hp. congruence.
    + apply is_ready_not_error. assumption.
  - exists (after_polls self j w).
    unfold poll_answer in Hans. rewrite get_task_result_run in Hans |- *.
    cbn [fst] in Hans. rewrite Hans, Hw. reflexivity.
Qed.

(** Two polls answered [processing], the third [ready]; and one poll
    answered [processing], the second refused with error 12. *)
Lemma wait_until_completed_terminal_witness :
  let w := Stubs.empty_world in
  (let self := Stubs.running (Stubs.slow 2 VNone) in
   exists r w',
     (exists fuel, (fuel <= 3)%nat /\
        wait_until_completed fuel self w = Some (r, w')) /\
     (forall fuel r2 w2,
        wait_until_completed fuel self w = Some (r2, w2) -> r2 = r /\ w2 = w') /\
     match r with
     | Ret t => is_ready t = true /\ is_processing t = false /\ is_error t = false
     | Raise _ => True
     end /\
     exists w0, get_task_result (client self) (task_id (task self)) w0 = (r, w')) /\
  (let self := Stubs.running Stubs.failing_later in
   exists r w',
     (exists fuel, (fuel <= 2)%nat /\
        wait_until_completed fuel self w = Some (r, w')) /\
     (forall fuel r2 w2,
        wait_until_completed fuel self w = Some (r2, w2) -> r2 = r /\ w2 = w') /\
     match r with
     | Ret t => is_ready t = true /\ is_processing t = false /\ is_error t = false
     | Raise _ => True
     end /\
     exists w0, get_task_result (client self) (task_id (task self)) w0 = (r, w')).
Proof.
  intros w. split.
  - intros self.
    apply (wait_until_completed_terminal self w 2).
    vm_compute. reflexivity.
  - intros self.
    apply (wait_until_completed_terminal self w 1).
    vm_compute. exact I.
Defined.

Lemma posts_app (evs1 evs2 : list event) :
  posts (evs1 ++ evs2) = (posts evs1 + posts evs2)%nat.
Proof. unfold posts. rewrite filter_app, length_app. reflexivity. Qed.

Lemma slept_app (evs1 evs2 : list event) :
  slept (evs1 ++ evs2) = slept evs1 + slept evs2.
Proof.
  induction evs1 as [|[path json|d] evs1 IH]; cbn [app slept]; lia.
Qed.

Lemma idle_turns_S (self : RunningTask) (n : nat) :
  idle_turns self (S n) = [poll_request self; EvSleep 10] ++ idle_turns self n.
Proof. reflexivity. Qed.

Lemma posts_idle_turns (self : RunningTask) (n : nat) :
  posts (idle_turns self n) = n.
Proof.
  induction n as [|n IH]; [reflexivity|].
  rewrite idle_turns_S, posts_app, IH. reflexivity.
Qed.

Lemma slept_idle_turns (self : RunningTask) (n : nat) :
  slept (idle_turns self n) = 10 * Z.of_nat n.
Proof.
  induction n as [|n IH]; [reflexivity|].
  rewrite idle_turns_S, slept_app, IH. cbn [slept poll_request]. lia.
Qed.

(** C2.  If [get_task_result] answers a processing Task in each of the
    first [n] turns and a ready Task in turn [n], the loop returns that
    ready Task: any fuel above [n] gives it and no smaller fuel gives
    anything, so it takes exactly [n + 1] polls.  The events it adds to the
    trace are [n] times a poll followed by a sleep of 10, then the last
    poll: [n + 1] round trips, a sleep of 10 between consecutive ones,
    [10 * n] slept in all; the heap is untouched. *)
Theorem wait_until_completed_after_n_polls
    (self : RunningTask) (w : world) (n : nat) (ready : Task) :
  (forall j, (j < n)%nat ->
     exists t, poll_answer self (after_polls self j w) = Ret t /\
               is_processing t = true) ->
  poll_answer self (after_polls self n w) = Ret ready ->
  is_ready ready = true ->
  exists w',
    (forall fuel, (n < fuel)%nat ->
       wait_until_completed fuel self w = Some (Ret ready, w')) /\
    (forall fuel, (fuel <= n)%nat -> wait_until_completed fuel self w = None) /\
    heap w' = heap w /\
    trace w' = trace w ++ idle_turns self n ++ [poll_request self] /\
    posts (idle_turns self n ++ [poll_request self]) = S n /\
    slept (idle_turns self n ++ [poll_request self]) = 10 * Z.of_nat n.
Proof.
  intros Hproc Hans Hready.
  assert (Hidle : forall j, (j < n)%nat ->
            exists t, poll_answer self (after_polls self j w) = Ret t /\
                      is_ready t = false).
  { intros j Hj. destruct (Hproc j Hj) as (t & Ht & Hp).
    exists t. split; [assumption|]. apply is_processing_not_ready, Hp. }
  destruct (wait_until_completed_first self n w (Ret ready) Hidle Hans Hready)
    as [Hrun Hnone].
  exists (log_event (poll_request self) (after_polls self n w)).
  split; [|split; [|split; [|split; [|split]]]].
  - intros fuel Hfuel.
    apply wait_until_completed_mono with (fuel := S n); [assumption|lia].
  - intros fuel Hfuel.
    destruct (wait_until_completed fuel self w) as [r|] eqn:E; [|reflexivity].
    apply wait_until_completed_mono with (fuel' := n) in E; [|assumption].
    congruence.
  - cbn [log_event heap]. apply after_polls_heap.
  - cbn [log_event trace]. rewrite after_polls_trace, <- app_assoc. reflexivity.
  - rewrite posts_app, posts_idle_turns.
    change (posts [poll_request self]) with 1%nat. lia.
  - rewrite slept_app, slept_idle_turns.
    change (slept [poll_request self]) with 0. lia.
Qed.

(** The stub that answers [processing] twice, then [ready]: three polls,
    two sleeps of 10 between them. *)
Lemma wait_until_completed_after_n_polls_witness :
  let self := Stubs.running (Stubs.slow 2 VNone) in
  let w := Stubs.empty_world in
  exists ready w',
    is_ready ready = true /\
    wait_until_completed 3 self w = Some (Ret ready, w') /\
    wait_until_completed 2 self w = None /\
    trace w' = [poll_request self; EvSleep 10; poll_request self; EvSleep 10;
                poll_request self].
Proof.
  intros self w.
  pose (processing :=
    {| task_id := None; error_id := 0; error_code := None;
       error_description := None; status := Some "processing";
       solution := None |} : Task).
  pose (ready :=
    {| task_id := None; error_id := 0; error_code := None;
       error_description := None; status := Some "ready";
       solution := Stubs.ready_body !! "solution" |} : Task).
  destruct (wait_until_completed_after_n_polls self w 2 ready)
    as (w' & Hrun & Hnone & _ & Htrace & _).
  - intros j Hj. exists processing.
    destruct j as [|[|j]]; [vm_compute; split; reflexivity ..|lia].
  - vm_compute. reflexivity.
  - vm_compute. reflexivity.
  - exists ready, w'.
    split; [vm_compute; reflexivity|].
    split; [apply Hrun; lia|].
    split; [apply Hnone; lia|].
    exact Htrace.
Defined.

(** ** C3, C6, C9: creating a task *)

(** C3.  Whenever the transport raises on the [/createTask] round trip, for
    instance an application error carrying the service's [errorId],
    [create_task] ends with exactly that failure, unchanged; it returns no
    RunningTask; and the trace grows by the single [/createTask] post: the
    request is not retried. *)
Theorem create_task_propagates_failure
    (self : Async2Captcha) (type : TaskType) (payload : loc) (w : world)
    (d : dict) (e : exn) :
  heap w !! payload = Some d ->
  let json := Some {[ "task" := VDict (<[ "type" := VEnum type ]> d) ]} in
  transport (session self) (trace w) "/createTask" json = Raise e ->
  exists w',
    create_task self type payload w = (Raise e, w') /\
    (forall running, fst (create_task self type payload w) <> Ret running) /\
    trace w' = trace w ++ [EvPost "/createTask" json] /\
    posts [EvPost "/createTask" json] = 1%nat.
Proof.
  intros Hd json Hfail.
  rewrite (create_task_run self type payload w d Hd).
  fold json. rewrite Hfail. cbn [obind fst].
  eexists. split; [reflexivity|].
  split; [discriminate|].
  split; reflexivity.
Qed.

(** The service answers [/createTask] with error 12: [create_task] raises
    the failure with code 12 after one post. *)
Lemma create_task_propagates_failure_witness :
  let self := Async2Captcha_init Stubs.refusing "key" in
  let e := TwoCaptchaError 12 "ERROR_CAPTCHA_UNSOLVABLE" "unsolvable" in
  let json := Some {[ "task" := VDict (<[ "type" := VEnum COORDINATES ]>
                                         Stubs.caller_payload) ]} in
  exists w',
    create_task self COORDINATES 1%positive Stubs.caller_world = (Raise e, w') /\
    (forall running,
       fst (create_task self COORDINATES 1%positive Stubs.caller_world)
         <> Ret running) /\
    trace w' = trace Stubs.caller_world ++ [EvPost "/createTask" json] /\
    posts [EvPost "/createTask" json] = 1%nat.
Proof.
  intros self e json.
  apply (create_task_propagates_failure self COORDINATES 1%positive
           Stubs.caller_world Stubs.caller_payload e).
  - vm_compute. reflexivity.
  - reflexivity.
Defined.

(** C9.  [create_task] writes into the caller's own dictionary: whatever
    the call produces, a RunningTask or a failure, afterwards the dictionary
    behind [payload] binds ["type"] to the given task type and agrees with
    its old contents on every other key; no other dictionary changes. *)
Theorem create_task_mutates_payload
    (self : Async2Captcha) (type : TaskType) (payload : loc) (w : world)
    (d : dict) :
  heap w !! payload = Some d ->
  forall r w', create_task self type payload w = (r, w') ->
  exists d',
    heap w' !! payload = Some d' /\
    d' !! "type" = Some (VEnum type) /\
    (forall key, key <> "type" -> d' !! key = d !! key) /\
    (forall l, l <> payload -> heap w' !! l = heap w !! l).
Proof.
  intros Hd r w' Hrun.
  rewrite (create_task_run self type payload w d Hd) in Hrun.
  inversion Hrun; subst; clear Hrun. cbn [heap].
  exists (<[ "type" := VEnum type ]> d).
  split; [apply lookup_insert_eq|].
  split; [apply lookup_insert_eq|].
  split.
  - intros key Hkey. apply lookup_insert_ne. congruence.
  - intros l Hl. apply lookup_insert_ne. congruence.
Qed.

(** The caller's dictionary [{body, minClicks}] after a call that raises:
    it has gained ["type"], and ["body"] is as before. *)
Lemma create_task_mutates_payload_witness :
  let self := Async2Captcha_init Stubs.refusing "key" in
  let run := create_task self COORDINATES 1%positive Stubs.caller_world in
  exists d',
    heap (snd run) !! 1%positive = Some d' /\
    d' !! "type" = Some (VEnum COORDINATES) /\
    (forall key, key <> "type" -> d' !! key = Stubs.caller_payload !! key) /\
    (forall l, l <> 1%positive ->
       heap (snd run) !! l = heap Stubs.caller_world !! l).
Proof.
  intros self run.
  apply (create_task_mutates_payload self COORDINATES 1%positive
           Stubs.caller_world Stubs.caller_payload) with (r := fst run).
  - vm_compute. reflexivity.
  - vm_compute. reflexivity.
Defined.

(** The parse keeps the task id the response carries. *)
Lemma Task_model_validate_task_id (data : dict) (t : Task) (n : Z) :
  Task_model_validate data = Ret t ->
  data !! "taskId" = Some (VInt n) ->
  task_id t = Some n.
Proof.
  unfold Task_model_validate, TaskModel_validate. intros H Hid.
  change (CamelCase.to_camel "task_id") with "taskId" in H.
  rewrite Hid in H. cbn [validate_optional validate_int] in H.
  repeat match type of H with
         | obind ?o _ = _ => destruct o; cbn [obind] in H; [|discriminate]
         end.
  inversion H. reflexivity.
Qed.

(** C6.  [create_task] writes the type into the payload, posts
    [{task: payload}] to [/createTask] once, and, when the response parses
    into a Task, returns the RunningTask that holds the client and that
    Task; its task id is the [taskId] of the response, and it is the id its
    polls ask for.  [get_task_result] is a single post of [{taskId: id}] to
    [/getTaskResult], whose answer, or failure, is passed through the
    parse. *)
Theorem create_task_and_get_task_result
    (self : Async2Captcha) (type : TaskType) (payload : loc) (w : world)
    (d data : dict) (t : Task) :
  heap w !! payload = Some d ->
  let json := Some {[ "task" := VDict (<[ "type" := VEnum type ]> d) ]} in
  transport (session self) (trace w) "/createTask" json = Ret data ->
  Task_model_validate data = Ret t ->
  (exists w',
     let running := {| client := self; task := t |} in
     create_task self type payload w = (Ret running, w') /\
     trace w' = trace w ++ [EvPost "/createTask" json] /\
     (forall n, data !! "taskId" = Some (VInt n) ->
        task_id (task running) = Some n /\
        poll_request running
          = EvPost "/getTaskResult" (Some {[ "taskId" := VInt n ]}))) /\
  (forall tid w2,
     let request := Some {[ "taskId" := of_opt_int tid ]} in
     get_task_result self tid w2 =
       (try answer := transport (session self) (trace w2) "/getTaskResult" request in
        Task_model_validate answer,
        log_event (EvPost "/getTaskResult" request) w2)).
Proof.
  intros Hd json Hok Hparse. split.
  - rewrite (create_task_run self type payload w d Hd).
    fold json. rewrite Hok. cbn [obind]. rewrite Hparse. cbn [obind].
    eexists. split; [reflexivity|]. split; [reflexivity|].
    intros n Hn. cbn [task].
    pose proof (Task_model_validate_task_id data t n Hparse Hn) as Hid.
    split; [assumption|].
    unfold poll_request. cbn [task]. rewrite Hid. reflexivity.
  - intros tid w2 request. apply get_task_result_run.
Qed.

(** The service answers [/createTask] with task 42. *)
Lemma create_task_and_get_task_result_witness :
  let self := Async2Captcha_init (Stubs.slow 2 VNone) "key" in
  let json := Some {[ "task" := VDict (<[ "type" := VEnum COORDINATES ]>
                                         Stubs.caller_payload) ]} in
  exists running w',
    create_task self COORDINATES 1%positive Stubs.caller_world
      = (Ret running, w') /\
    trace w' = [EvPost "/createTask" json] /\
    task_id (task running) = Some 42 /\
    poll_request running
      = EvPost "/getTaskResult" (Some {[ "taskId" := VInt 42 ]}).
Proof.
  intros self json.
  destruct (create_task_and_get_task_result self COORDINATES 1%positive
              Stubs.caller_world Stubs.caller_payload Stubs.created_body
              (task (Stubs.running (Stubs.slow 2 VNone))))
    as [(w' & Hrun & Htrace & Hid) _].
  - vm_compute. reflexivity.
  - vm_compute. reflexivity.
  - vm_compute. reflexivity.
  - eexists. exists w'.
    split; [exact Hrun|]. split; [exact Htrace|].
    apply Hid. vm_compute. reflexivity.
Defined.

(** ** C7: the balance *)



(** ** C5 and C10: the payload of the coordinates solver *)

Section Payload.

Context (body : string) (comment img_instructions : option string)
  (min_clicks max_clicks : option Z).

Local Abbreviation payload :=
  (coordinates_payload body comment img_instructions min_clicks max_clicks).

Lemma truthy_spec (o : option string) :
  truthy o = true <-> exists s, o = Some s /\ s <> "".
Proof.
  destruct o as [s|]; cbn [truthy].
  - rewrite negb_true_iff, String.eqb_neq. split.
    + intros Hs. exists s. split; [reflexivity|assumption].
    + intros (s' & [= <-] & Hs). assumption.
  - split; [discriminate|]. intros (s & Hs & _). discriminate.
Qed.

Lemma payload_body : payload !! "body" = Some (VStr body).
Proof.
  unfold payload, coordinates_payload.
  destruct (truthy comment), (truthy img_instructions),
    (is_not_None min_clicks), (is_not_None max_clicks);
    by simplify_map_eq.
Qed.

Lemma payload_comment :
  payload !! "comment" = if truthy comment then Some (of_opt_str comment) else None.
Proof.
  unfold payload, coordinates_payload.
  destruct (truthy comment), (truthy img_instructions),
    (is_not_None min_clicks), (is_not_None max_clicks);
    by simplify_map_eq.
Qed.

Lemma payload_imgInstructions :
  payload !! "imgInstructions"
    = if truthy img_instructions then Some (of_opt_str img_instructions) else None.
Proof.
  unfold payload, coordinates_payload.
  destruct (truthy comment), (truthy img_instructions),
    (is_not_None min_clicks), (is_not_None max_clicks);
    by simplify_map_eq.
Qed.

Lemma payload_minClicks : payload !! "minClicks" = VInt <$> min_clicks.
Proof.
  unfold payload, coordinates_payload.
  destruct (truthy comment), (truthy img_instructions),
    min_clicks, max_clicks; by simplify_map_eq.
Qed.

Lemma payload_maxClicks : payload !! "maxClicks" = VInt <$> max_clicks.
Proof.
  unfold payload, coordinates_payload.
  destruct (truthy comment), (truthy img_instructions),
    min_clicks, max_clicks; by simplify_map_eq.
Qed.

Lemma payload_other (key : string) :
  key ∉ ["body"; "comment"; "imgInstructions"; "minClicks"; "maxClicks"] ->
  payload !! key = None.
Proof.
  intros Hkey.
  assert (key <> "body" /\ key <> "comment" /\ key <> "imgInstructions" /\
          key <> "minClicks" /\ key <> "maxClicks") as (? & ? & ? & ? & ?).
  { repeat split; intros ->; apply Hkey; repeat constructor. }
  unfold payload, coordinates_payload.
  destruct (truthy comment), (truthy img_instructions),
    (is_not_None min_clicks), (is_not_None max_clicks);
    by simplify_map_eq.
Qed.

End Payload.

(** The solver hands the assembled payload to the client, which posts it,
    with the task type added, in one [/createTask] round trip. *)
Lemma CoordinatesSolver_submit_trace (self : SolverBase) (body : string)
    (comment img_instructions : option string) (min_clicks max_clicks : option Z)
    (w : world) :
  let payload := coordinates_payload body comment img_instructions
                   min_clicks max_clicks in
  trace (snd (CoordinatesSolver_submit self body comment img_instructions
                min_clicks max_clicks w))
    = trace w ++ [EvPost "/createTask"
                    (Some {[ "task" := VDict (<[ "type" := VEnum COORDINATES ]> payload) ]})].
Proof.
  intros payload.
  unfold CoordinatesSolver_submit, bind. cbn [new_dict].
  rewrite (create_task_run _ _ _ _ payload).
  - reflexivity.
  - cbn [set_heap heap]. apply lookup_insert_eq.
Qed.

(** Every entry of the payload comes from a supplied parameter: it is
    never [None], and an optional string that was sent is never empty. *)
Lemma payload_values (body : string) (comment img_instructions : option string)
    (min_clicks max_clicks : option Z) (key : string) (v : value) :
  coordinates_payload body comment img_instructions min_clicks max_clicks !! key
    = Some v ->
  v <> VNone /\ (key <> "body" -> v <> VStr "").
Proof.
  intros Hv.
  destruct (decide (key = "body")) as [->|Hb].
  { rewrite payload_body in Hv. inversion Hv. split; [discriminate|congruence]. }
  destruct (decide (key = "comment")) as [->|Hc].
  { rewrite payload_comment in Hv.
    destruct (truthy comment) eqn:Ht; [|discriminate].
    apply truthy_spec in Ht as (s & -> & Hs). inversion Hv.
    split; [discriminate|]. intros _ [= E]. contradiction. }
  destruct (decide (key = "imgInstructions")) as [->|Hi].
  { rewrite payload_imgInstructions in Hv.
    destruct (truthy img_instructions) eqn:Ht; [|discriminate].
    apply truthy_spec in Ht as (s & -> & Hs). inversion Hv.
    split; [discriminate|]. intros _ [= E]. contradiction. }
  destruct (decide (key = "minClicks")) as [->|Hmin].
  { rewrite payload_minClicks in Hv.
    destruct min_clicks; inversion Hv. split; [discriminate|]. discriminate. }
  destruct (decide (key = "maxClicks")) as [->|Hmax].
  { rewrite payload_maxClicks in Hv.
    destruct max_clicks; inversion Hv. split; [discriminate|]. discriminate. }
  rewrite payload_other in Hv; [discriminate|].
  rewrite !elem_of_cons, elem_of_nil. tauto.
Qed.

(** C5.  With only [body] supplied the assembled payload is [{body}], one
    key; with [min_clicks=1] and [max_clicks=3] as well it is [{body,
    minClicks: 1, maxClicks: 3}], three keys.  In general an optional
    parameter that is absent leaves no key behind, and no entry of the
    payload is [None], nor an empty string under an optional key.  The
    payload is what the solver submits: the one [/createTask] post carries
    it, with the task type the client adds. *)
Theorem coordinates_payload_omits_absent (body : string) :
  coordinates_payload body None None None None = {[ "body" := VStr body ]} /\
  dom (coordinates_payload body None None None None) = ({[ "body" ]} : gset string) /\
  coordinates_payload body None None (Some 1) (Some 3)
    = {[ "body" := VStr body; "minClicks" := VInt 1; "maxClicks" := VInt 3 ]} /\
  dom (coordinates_payload body None None (Some 1) (Some 3))
    = ({[ "body"; "minClicks"; "maxClicks" ]} : gset string) /\
  (forall comment img_instructions min_clicks max_clicks,
     let payload := coordinates_payload body comment img_instructions
                      min_clicks max_clicks in
     (comment = None -> payload !! "comment" = None) /\
     (img_instructions = None -> payload !! "imgInstructions" = None) /\
     (min_clicks = None -> payload !! "minClicks" = None) /\
     (max_clicks = None -> payload !! "maxClicks" = None) /\
     (forall key v, payload !! key = Some v ->
        v <> VNone /\ (key <> "body" -> v <> VStr "")) /\
     (forall self w,
        trace (snd (CoordinatesSolver_submit self body comment img_instructions
                      min_clicks max_clicks w))
          = trace w ++ [EvPost "/createTask"
              (Some {[ "task" := VDict (<[ "type" := VEnum COORDINATES ]> payload) ]})])).
Proof.
  split; [reflexivity|].
  split; [apply dom_singleton_L|].
  split.
  { unfold coordinates_payload. cbn [truthy is_not_None of_opt_int].
    apply map_eq. intros key.
    destruct (decide (key = "body")) as [->|?]; [by simplify_map_eq|].
    destruct (decide (key = "minClicks")) as [->|?]; [by simplify_map_eq|].
    destruct (decide (key = "maxClicks")) as [->|?]; by simplify_map_eq. }
  split.
  { unfold coordinates_payload. cbn [truthy is_not_None of_opt_int].
    rewrite !dom_insert_L, dom_singleton_L. set_solver. }
  intros comment img_instructions min_clicks max_clicks payload.
  split; [intros ->; apply payload_comment|].
  split; [intros ->; apply payload_imgInstructions|].
  split; [intros ->; apply payload_minClicks|].
  split; [intros ->; apply payload_maxClicks|].
  split; [intros key v; apply payload_values|].
  intros self w. apply CoordinatesSolver_submit_trace.
Qed.

(** The two payloads of the description, for one image. *)
Lemma coordinates_payload_omits_absent_witness :
  dom (coordinates_payload "aGVsbG8=" None None None None)
    = ({[ "body" ]} : gset string) /\
  coordinates_payload "aGVsbG8=" None None (Some 1) (Some 3) !! "minClicks"
    = Some (VInt 1) /\
  coordinates_payload "aGVsbG8=" None None (Some 1) (Some 3) !! "comment" = None.
Proof.
  destruct (coordinates_payload_omits_absent "aGVsbG8=")
    as (_ & Hdom & _ & _ & Hgen).
  split; [exact Hdom|].
  split; [vm_compute; reflexivity|].
  apply (Hgen None None (Some 1) (Some 3)). reflexivity.
Defined.

(** C10.  The string optionals and the integer optionals are tested
    differently.  ["comment"] and ["imgInstructions"] are in the payload
    exactly when the argument is truthy, a non-empty string, so an explicit
    empty string gives the same payload as an absent argument;
    ["minClicks"] and ["maxClicks"] are in the payload exactly when the
    argument is not [None], so an explicit 0 is sent. *)
Theorem coordinates_payload_inclusion_tests
    (body : string) (comment img_instructions : option string)
    (min_clicks max_clicks : option Z) :
  let payload := coordinates_payload body comment img_instructions
                   min_clicks max_clicks in
  (payload !! "comment" = if truthy comment then VStr <$> comment else None) /\
  (payload !! "imgInstructions"
     = if truthy img_instructions then VStr <$> img_instructions else None) /\
  (truthy comment = true <-> exists s, comment = Some s /\ s <> "") /\
  (truthy img_instructions = true
     <-> exists s, img_instructions = Some s /\ s <> "") /\
  payload !! "minClicks" = VInt <$> min_clicks /\
  payload !! "maxClicks" = VInt <$> max_clicks /\
  coordinates_payload body (Some "") (Some "") min_clicks max_clicks
    = coordinates_payload body None None min_clicks max_clicks /\
  coordinates_payload body comment img_instructions (Some 0) (Some 0) !! "minClicks"
    = Some (VInt 0) /\
  coordinates_payload body comment img_instructions (Some 0) (Some 0) !! "maxClicks"
    = Some (VInt 0).
Proof.
  intros payload.
  split.
  { unfold payload. rewrite payload_comment. by destruct comment. }
  split.
  { unfold payload. rewrite payload_imgInstructions. by destruct img_instructions. }
  split; [apply truthy_spec|].
  split; [apply truthy_spec|].
  split; [apply payload_minClicks|].
  split; [apply payload_maxClicks|].
  split; [reflexivity|].
  split; [apply payload_minClicks|apply payload_maxClicks].
Qed.

(** ** C8: from the generic Task to the typed result *)








(** * Further properties of the code *)

(** ** The poll loop beyond its terminal turn *)

(** X1.  The loop of [wait_until_completed] leaves only through
    [return task] under [task.is_ready()] or through a raise: as long as
    the polls return Tasks that are not ready, whatever their status or
    error id, no turn returns, so [fuel] such answers leave the loop
    running after [fuel] turns. *)
Theorem wait_until_completed_keeps_polling
    (self : RunningTask) (w : world) (fuel : nat) :
  (forall j, (j < fuel)%nat ->
     exists t, poll_answer self (after_polls self j w) = Ret t /\
               is_ready t = false) ->
  wait_until_completed fuel self w = None.
Proof.
  revert w. induction fuel as [|fuel IH]; intros w Hidle; [reflexivity|].
  destruct (Hidle 0%nat ltac:(lia)) as (t & Ht & Hr).
  cbn [after_polls] in Ht.
  rewrite wait_until_completed_S, Ht, Hr.
  apply IH. intros j Hj. apply (Hidle (S j)). lia.
Qed.

(** A service that hands an errored Task back as a value: three turns, and
    the loop is still polling. *)
Lemma wait_until_completed_keeps_polling_witness :
  wait_until_completed 3
    (Stubs.running (MoreStubs.always (Ret MoreStubs.errored_body)))
    Stubs.empty_world = None.
Proof.
  apply wait_until_completed_keeps_polling.
  intros j Hj.
  exists {| task_id := None; error_id := 12;
            error_code := Some "ERROR_CAPTCHA_UNSOLVABLE";
            error_description := None; status := Some "ready";
            solution := None |}.
  destruct j as [|[|[|j]]]; [vm_compute; split; reflexivity ..|lia].
Defined.

(** X2.  Whatever [wait_until_completed] produces, it got there by [k]
    turns that did not return and one last poll: the trace grows by [k]
    times a post followed by a sleep of 10, then one post, all posts
    asking for the task id stored in the handle; at least one round trip
    is made, nothing is slept after the last one, and the heap is as
    before. *)
Theorem wait_until_completed_events
    (self : RunningTask) (w : world) (fuel : nat) (r : outcome Task) (w' : world) :
  wait_until_completed fuel self w = Some (r, w') ->
  exists k, (k < fuel)%nat /\
    trace w' = trace w ++ idle_turns self k ++ [poll_request self] /\
    posts (idle_turns self k ++ [poll_request self]) = S k /\
    slept (idle_turns self k ++ [poll_request self]) = 10 * Z.of_nat k /\
    heap w' = heap w.
Proof.
  intros Hrun.
  destruct (wait_until_completed_sound self _ _ _ _ Hrun)
    as (k & Hk & _ & -> & _).
  exists k. split; [assumption|].
  split.
  { cbn [log_event trace]. rewrite after_polls_trace, <- app_assoc. reflexivity. }
  split.
  { rewrite posts_app, posts_idle_turns.
    change (posts [poll_request self]) with 1%nat. lia. }
  split.
  { rewrite slept_app, slept_idle_turns.
    change (slept [poll_request self]) with 0. lia. }
  cbn [log_event heap]. apply after_polls_heap.
Qed.

(** The run that fails at its second poll: one idle turn, then the last
    post. *)
Lemma wait_until_completed_events_witness :
  let self := Stubs.running Stubs.failing_later in
  let w' := World ∅ [poll_request self; EvSleep 10; poll_request self] in
  exists k, (k < 2)%nat /\
    trace w' = trace Stubs.empty_world
                 ++ idle_turns self k ++ [poll_request self] /\
    posts (idle_turns self k ++ [poll_request self]) = S k /\
    slept (idle_turns self k ++ [poll_request self]) = 10 * Z.of_nat k /\
    heap w' = heap Stubs.empty_world.
Proof.
  intros self w'.
  apply (wait_until_completed_events self Stubs.empty_world 2
           (Raise (TwoCaptchaError 12 "ERROR_CAPTCHA_UNSOLVABLE" "unsolvable"))).
  vm_compute. reflexivity.
Defined.

(** X3.  A failure of [get_task_result] is not retried by the loop: when
    turn [n] raises after [n] answers that were not ready, every fuel above
    [n] ends with that failure right after the post of turn [n], and no
    smaller fuel ends at all. *)
Theorem wait_until_completed_raises_at
    (self : RunningTask) (w : world) (n : nat) (e : exn) :
  (forall j, (j < n)%nat ->
     exists t, poll_answer self (after_polls self j w) = Ret t /\
               is_ready t = false) ->
  poll_answer self (after_polls self n w) = Raise e ->
  (forall fuel, (n < fuel)%nat ->
     wait_until_completed fuel self w
       = Some (Raise e, log_event (poll_request self) (after_polls self n w))) /\
  (forall fuel, (fuel <= n)%nat -> wait_until_completed fuel self w = None).
Proof.
  intros Hidle Hraise.
  destruct (wait_until_completed_first self n w (Raise e) Hidle Hraise I)
    as [Hrun Hnone].
  split.
  - intros fuel Hfuel.
    apply wait_until_completed_mono with (fuel := S n); [assumption|lia].
  - intros fuel Hfuel.
    destruct (wait_until_completed fuel self w) as [res|] eqn:E; [|reflexivity].
    apply wait_until_completed_mono with (fuel' := n) in E; [|assumption].
    congruence.
Qed.

(** One [processing] answer, then error 12: the failure comes out of the
    second turn. *)
Lemma wait_until_completed_raises_at_witness :
  let self := Stubs.running Stubs.failing_later in
  let e := TwoCaptchaError 12 "ERROR_CAPTCHA_UNSOLVABLE" "unsolvable" in
  wait_until_completed 5 self Stubs.empty_world
    = Some (Raise e, log_event (poll_request self)
                       (after_polls self 1 Stubs.empty_world)) /\
  wait_until_completed 1 self Stubs.empty_world = None.
Proof.
  intros self e.
  destruct (wait_until_completed_raises_at self Stubs.empty_world 1 e)
    as [Hrun Hnone].
  - intros j Hj.
    exists {| task_id := None; error_id := 0; error_code := None;
              error_description := None; status := Some "processing";
              solution := None |}.
    destruct j as [|j]; [vm_compute; split; reflexivity|lia].
  - vm_compute. reflexivity.
  - split; [apply Hrun; lia|apply Hnone; lia].
Defined.

(** ** The client beyond the successful round trip *)

(** X4.  [get_balance] indexes the response with ["balance"] and hands the
    value to [float]: a response without that field, such as a task state,
    ends in [KeyError("balance")], and a null balance in [TypeError]; either
    way the one round trip has been made. *)
Theorem get_balance_without_number
    (self : Async2Captcha) (w : world) (data : dict) :
  transport (session self) (trace w) "/getTaskResult" None = Ret data ->
  let w' := log_event (EvPost "/getTaskResult" None) w in
  (data !! "balance" = None ->
     get_balance self w = (Raise (KeyError "balance"), w')) /\
  (data !! "balance" = Some VNone ->
     get_balance self w = (Raise TypeError, w')).
Proof.
  intros Hok w'. split; intros Hb.
  - rewrite get_balance_run, Hok. cbn [obind]. rewrite Hb. reflexivity.
  - rewrite get_balance_run, Hok. cbn [obind]. rewrite Hb. reflexivity.
Qed.

(** The service answers the balance request with a task state. *)
Lemma get_balance_without_number_witness :
  let self := Async2Captcha_init (MoreStubs.always (Ret Stubs.processing_body)) "key" in
  get_balance self Stubs.empty_world
    = (Raise (KeyError "balance"),
       log_event (EvPost "/getTaskResult" None) Stubs.empty_world).
Proof.
  intros self.
  apply (get_balance_without_number self Stubs.empty_world Stubs.processing_body).
  - reflexivity.
  - vm_compute. reflexivity.
Defined.

(** X5.  [get_balance] has no handler around [session.post]: a failure of
    the transport is its outcome, unchanged, after the single post, and the
    heap is not touched. *)
Theorem get_balance_propagates_failure
    (self : Async2Captcha) (w : world) (e : exn) :
  transport (session self) (trace w) "/getTaskResult" None = Raise e ->
  get_balance self w
    = (Raise e, World (heap w) (trace w ++ [EvPost "/getTaskResult" None])).
Proof.
  intros Hfail. rewrite get_balance_run, Hfail. reflexivity.
Qed.

(** The service refuses the balance request with error 12. *)
Lemma get_balance_propagates_failure_witness :
  get_balance (Async2Captcha_init Stubs.refusing "key") Stubs.caller_world
    = (Raise (TwoCaptchaError 12 "ERROR_CAPTCHA_UNSOLVABLE" "unsolvable"),
       World (heap Stubs.caller_world) [EvPost "/getTaskResult" None]).
Proof.
  apply (get_balance_propagates_failure
           (Async2Captcha_init Stubs.refusing "key") Stubs.caller_world).
  reflexivity.
Defined.

(** X6.  In [create_task] the handle is built last (line 61), after the
    write into the payload (line 59) and the post (line 60): when
    [RunningTask(self, data)] fails on the response, the call raises that
    failure, and yet the request has been sent once and the caller's
    dictionary carries the type. *)
Theorem create_task_fails_after_effects
    (self : Async2Captcha) (type : TaskType) (payload : loc) (w : world)
    (d data : dict) (e : exn) :
  heap w !! payload = Some d ->
  let d' := <[ "type" := VEnum type ]> d in
  let json := Some {[ "task" := VDict d' ]} in
  transport (session self) (trace w) "/createTask" json = Ret data ->
  Task_model_validate data = Raise e ->
  create_task self type payload w
    = (Raise e, World (<[ payload := d' ]> (heap w))
                      (trace w ++ [EvPost "/createTask" json])).
Proof.
  intros Hd d' json Hok Hparse.
  rewrite (create_task_run self type payload w d Hd).
  fold d'. fold json. rewrite Hok. cbn [obind]. rewrite Hparse. reflexivity.
Qed.

(** The service answers [/createTask] with an empty object. *)
Lemma create_task_fails_after_effects_witness :
  let self := Async2Captcha_init (MoreStubs.always (Ret ∅)) "key" in
  let d' := <[ "type" := VEnum COORDINATES ]> Stubs.caller_payload in
  let json := Some {[ "task" := VDict d' ]} in
  create_task self COORDINATES 1%positive Stubs.caller_world
    = (Raise (ValidationError "Task" "error_id"),
       World (<[ 1%positive := d' ]> (heap Stubs.caller_world))
             (trace Stubs.caller_world ++ [EvPost "/createTask" json])).
Proof.
  intros self d' json.
  apply (create_task_fails_after_effects self COORDINATES 1%positive
           Stubs.caller_world Stubs.caller_payload ∅).
  - vm_compute. reflexivity.
  - reflexivity.
  - vm_compute. reflexivity.
Defined.

(** X7.  The type written by [create_task] replaces the one of an earlier
    call: after two calls on the same dictionary, the heap is what the
    second call alone would have left, the dictionary binds ["type"] to
    the second type, and the second post carries exactly that
    dictionary. *)
Theorem create_task_twice
    (self : Async2Captcha) (type1 type2 : TaskType) (payload : loc)
    (w : world) (d : dict) :
  heap w !! payload = Some d ->
  let w1 := snd (create_task self type1 payload w) in
  let w2 := snd (create_task self type2 payload w1) in
  let d2 := <[ "type" := VEnum type2 ]> d in
  heap w2 = heap (snd (create_task self type2 payload w)) /\
  heap w2 !! payload = Some d2 /\
  trace w2 = trace w1 ++ [EvPost "/createTask" (Some {[ "task" := VDict d2 ]})].
Proof.
  intros Hd w1 w2 d2.
  assert (Hw1 : w1 = World (<[ payload := <[ "type" := VEnum type1 ]> d ]> (heap w))
                       (trace w ++ [EvPost "/createTask"
                          (Some {[ "task" := VDict (<[ "type" := VEnum type1 ]> d) ]})])).
  { unfold w1. rewrite (create_task_run self type1 payload w d Hd). reflexivity. }
  assert (Hd1 : heap w1 !! payload = Some (<[ "type" := VEnum type1 ]> d)).
  { rewrite Hw1. cbn [heap]. apply lookup_insert_eq. }
  assert (Hw2 : w2 = World (<[ payload := d2 ]> (heap w))
                       (trace w1 ++ [EvPost "/createTask"
                          (Some {[ "task" := VDict d2 ]})])).
  { unfold w2. rewrite (create_task_run self type2 payload w1 _ Hd1).
    cbn [snd]. rewrite insert_insert_eq.
    rewrite Hw1 at 1. cbn [heap]. rewrite insert_insert_eq. reflexivity. }
  rewrite Hw2. cbn [heap trace].
  rewrite (create_task_run self type2 payload w d Hd). cbn [snd heap].
  split; [reflexivity|]. split; [apply lookup_insert_eq|reflexivity].
Qed.

(** The caller's dictionary, first sent as a turnstile task, then as a
    coordinates task. *)
Lemma create_task_twice_witness :
  let self := Async2Captcha_init (Stubs.slow 2 VNone) "key" in
  let w1 := snd (create_task self TURNSTILE 1%positive Stubs.caller_world) in
  let w2 := snd (create_task self COORDINATES 1%positive w1) in
  heap w2 !! 1%positive
    = Some (<[ "type" := VEnum COORDINATES ]> Stubs.caller_payload).
Proof.
  intros self w1 w2.
  apply (create_task_twice self TURNSTILE COORDINATES 1%positive
           Stubs.caller_world Stubs.caller_payload).
  vm_compute. reflexivity.
Defined.

(** ** The coordinates solver as a whole *)

(** How the first half of the solver runs: a new dictionary at a fresh
    location, which [create_task] completes with the type and posts. *)
Lemma CoordinatesSolver_submit_run (self : SolverBase) (body : string)
    (comment img_instructions : option string) (min_clicks max_clicks : option Z)
    (w : world) :
  let d' := <[ "type" := VEnum COORDINATES ]>
              (coordinates_payload body comment img_instructions
                 min_clicks max_clicks) in
  let json := Some {[ "task" := VDict d' ]} in
  CoordinatesSolver_submit self body comment img_instructions
    min_clicks max_clicks w
    = (try data := transport (session (solver_client self)) (trace w)
                     "/createTask" json in
       try t := Task_model_validate data in
       Ret {| client := solver_client self; task := t |},
       World (<[ fresh (dom (heap w)) := d' ]> (heap w))
             (trace w ++ [EvPost "/createTask" json])).
Proof.
  intros d' json.
  unfold CoordinatesSolver_submit, bind. cbn [new_dict].
  erewrite create_task_run; [|cbn [set_heap heap]; apply lookup_insert_eq].
  cbn [set_heap heap trace]. rewrite insert_insert_eq. reflexivity.
Qed.

(** The two ways the solver can end: in its first half, or after the poll
    loop, with the re-projection of what the loop returned. *)
Lemma CoordinatesSolver_create_task_cases (lax_int : value -> option Z) (fuel : nat) (self : SolverBase)
    (body : string) (comment img_instructions : option string)
    (min_clicks max_clicks : option Z) (w : world) r w' :
  CoordinatesSolver_create_task lax_int fuel self body comment img_instructions
    min_clicks max_clicks w = Some (r, w') ->
  (exists e,
     CoordinatesSolver_submit self body comment img_instructions
       min_clicks max_clicks w = (Raise e, w') /\ r = Raise e) \/
  (exists running w1 r0,
     CoordinatesSolver_submit self body comment img_instructions
       min_clicks max_clicks w = (Ret running, w1) /\
     wait_until_completed fuel running w1 = Some (r0, w') /\
     r = match r0 with Ret t => reproject lax_int t | Raise e => Raise e end).
Proof.
  unfold CoordinatesSolver_create_task.
  destruct (CoordinatesSolver_submit _ _ _ _ _ _ w) as [[running|e] w1].
  - destruct (wait_until_completed fuel running w1) as [[[t|e] w2]|] eqn:Hwait;
      intros [= <- <-]; right; exists running, w1;
      [exists (Ret t)|exists (Raise e)]; repeat split; assumption.
  - intros [= <- <-]. left. exists e. split; reflexivity.
Qed.

(** What a successful re-projection keeps. *)
Lemma reproject_inv (lax_int : value -> option Z) (t : Task) (typed : CoordinatesTask) :
  reproject lax_int t = Ret typed ->
  task_id typed = task_id t /\ error_id typed = error_id t /\
  error_code typed = error_code t /\
  error_description typed = error_description t /\
  status typed = status t.
Proof.
  unfold reproject, CoordinatesTask_init, TaskModel_validate, id.
  change (Task_model_dump t !! "error_id") with (Some (VInt (error_id t))).
  change (Task_model_dump t !! "error_code")
    with (Some (of_opt_str (error_code t))).
  change (Task_model_dump t !! "error_description")
    with (Some (of_opt_str (error_description t))).
  change (Task_model_dump t !! "task_id") with (Some (of_opt_int (task_id t))).
  change (Task_model_dump t !! "status") with (Some (of_opt_str (status t))).
  destruct (validate_optional (validate_CoordinatesSolution lax_int) _) as [sol|e];
    destruct (error_code t), (error_description t), (task_id t), (status t);
    cbn; intros [= <-]; repeat split; reflexivity.
Qed.

(** X8.  The solver works on a dictionary of its own: whatever it
    produces, the heap afterwards is the old heap with one new dictionary,
    the payload completed with the type, at a location that was free; every
    dictionary the caller had is unchanged. *)
Theorem CoordinatesSolver_create_task_frame (lax_int : value -> option Z) (fuel : nat) (self : SolverBase)
    (body : string) (comment img_instructions : option string)
    (min_clicks max_clicks : option Z) (w : world) r w' :
  CoordinatesSolver_create_task lax_int fuel self body comment img_instructions
    min_clicks max_clicks w = Some (r, w') ->
  heap w !! fresh (dom (heap w)) = None /\
  heap w' = <[ fresh (dom (heap w)) :=
               <[ "type" := VEnum COORDINATES ]>
                 (coordinates_payload body comment img_instructions
                    min_clicks max_clicks) ]> (heap w) /\
  (forall l d, heap w !! l = Some d -> heap w' !! l = Some d).
Proof.
  intros Hrun.
  assert (Hfresh : heap w !! fresh (dom (heap w)) = None).
  { apply not_elem_of_dom, is_fresh. }
  assert (Hheap : heap w' = <[ fresh (dom (heap w)) :=
               <[ "type" := VEnum COORDINATES ]>
                 (coordinates_payload body comment img_instructions
                    min_clicks max_clicks) ]> (heap w)).
  { apply CoordinatesSolver_create_task_cases in Hrun
      as [(e & Hsub & _)|(running & w1 & r0 & Hsub & Hwait & _)];
      rewrite CoordinatesSolver_submit_run in Hsub.
    - inversion Hsub. reflexivity.
    - destruct (wait_until_completed_sound running _ _ _ _ Hwait)
        as (k & _ & _ & -> & _).
      cbn [log_event heap]. rewrite after_polls_heap.
      inversion Hsub. reflexivity. }
  split; [assumption|]. split; [assumption|].
  intros l d Hl. rewrite Hheap. rewrite lookup_insert_ne; [assumption|].
  intros <-. congruence.
Qed.

(** A caller with two dictionaries runs the solver: both are as before. *)
Lemma CoordinatesSolver_create_task_frame_witness :
  let self := client_coordinates (Async2Captcha_init Stubs.refusing "key") in
  let run := CoordinatesSolver_create_task MoreStubs.no_more 0 self "aGVsbG8=" None None None None
               MoreStubs.crowded_world in
  exists r w',
    run = Some (r, w') /\
    heap w' !! 1%positive = Some Stubs.caller_payload /\
    heap w' !! 2%positive = Some {[ "note" := VStr "keep" ]}.
Proof.
  intros self run.
  exists (Raise (TwoCaptchaError 12 "ERROR_CAPTCHA_UNSOLVABLE" "unsolvable")).
  eexists. split; [vm_compute; reflexivity|].
  split.
  - eapply (CoordinatesSolver_create_task_frame MoreStubs.no_more 0 self "aGVsbG8=" None None
              None None MoreStubs.crowded_world);
      vm_compute; reflexivity.
  - eapply (CoordinatesSolver_create_task_frame MoreStubs.no_more 0 self "aGVsbG8=" None None
              None None MoreStubs.crowded_world);
      vm_compute; reflexivity.
Defined.

(** X9.  A typed result the solver returns is a ready one: it is the
    re-projection of the Task the loop returned under [is_ready()], and the
    re-projection copies error id and status; so it is ready, not
    processing, and carries no error. *)
Theorem CoordinatesSolver_create_task_returns_ready (lax_int : value -> option Z) (fuel : nat)
    (self : SolverBase) (body : string) (comment img_instructions : option string)
    (min_clicks max_clicks : option Z) (w : world)
    (typed : CoordinatesTask) (w' : world) :
  CoordinatesSolver_create_task lax_int fuel self body comment img_instructions
    min_clicks max_clicks w = Some (Ret typed, w') ->
  is_ready typed = true /\ is_processing typed = false /\ error_id typed = 0.
Proof.
  intros Hrun.
  apply CoordinatesSolver_create_task_cases in Hrun
    as [(e & _ & [=])|(running & w1 & r0 & _ & Hwait & Hr)].
  destruct r0 as [t|e]; [|discriminate].
  destruct (wait_until_completed_sound running _ _ _ _ Hwait)
    as (_ & _ & _ & _ & Hready).
  symmetry in Hr. apply reproject_inv in Hr as (_ & He & _ & _ & Hs).
  assert (Htyped : is_ready typed = true).
  { unfold is_ready, status_is in *. rewrite He, Hs. exact Hready. }
  split; [exact Htyped|]. split.
  - destruct (is_processing typed) eqn:Hp; [|reflexivity].
    apply is_processing_not_ready in Hp. congruence.
  - apply is_ready_spec in Htyped as [Hz _]. exact Hz.
Qed.

(** The solver against the stub that is ready at the second poll. *)
Lemma CoordinatesSolver_create_task_returns_ready_witness :
  let self := client_coordinates (Async2Captcha_init (Stubs.slow 2 VNone) "key") in
  exists typed w',
    CoordinatesSolver_create_task MoreStubs.no_more 2 self "aGVsbG8=" None None (Some 1) None
      Stubs.empty_world = Some (Ret typed, w') /\
    is_ready typed = true /\ is_processing typed = false /\ error_id typed = 0.
Proof.
  intros self. eexists. eexists.
  assert (Hrun : CoordinatesSolver_create_task MoreStubs.no_more 2 self "aGVsbG8=" None None
                   (Some 1) None Stubs.empty_world
                 = Some (Ret {| task_id := None; error_id := 0;
                                error_code := None; error_description := None;
                                status := Some "ready";
                                solution := Some Stubs.clicked |},
                         World {[ 1%positive :=
                                    <[ "type" := VEnum COORDINATES ]>
                                      (coordinates_payload "aGVsbG8=" None None
                                         (Some 1) None) ]}
                               (trace (snd (CoordinatesSolver_submit self
                                  "aGVsbG8=" None None (Some 1) None
                                  Stubs.empty_world))
                                ++ idle_turns (Stubs.running (Stubs.slow 2 VNone)) 1
                                ++ [poll_request (Stubs.running (Stubs.slow 2 VNone))]))).
  { vm_compute. reflexivity. }
  split; [exact Hrun|].
  exact (CoordinatesSolver_create_task_returns_ready _ _ _ _ _ _ _ _ _ _ _ Hrun).
Defined.

(** X10.  When the [/createTask] round trip fails, the solver ends with
    that failure for every fuel, zero included: the loop is never entered,
    so the trace holds the one post and no poll or sleep. *)
Theorem CoordinatesSolver_create_task_fails_early (lax_int : value -> option Z) (self : SolverBase)
    (body : string) (comment img_instructions : option string)
    (min_clicks max_clicks : option Z) (w : world) (e : exn) :
  let d' := <[ "type" := VEnum COORDINATES ]>
              (coordinates_payload body comment img_instructions
                 min_clicks max_clicks) in
  let json := Some {[ "task" := VDict d' ]} in
  transport (session (solver_client self)) (trace w) "/createTask" json
    = Raise e ->
  forall fuel,
    CoordinatesSolver_create_task lax_int fuel self body comment img_instructions
      min_clicks max_clicks w
      = Some (Raise e, World (<[ fresh (dom (heap w)) := d' ]> (heap w))
                             (trace w ++ [EvPost "/createTask" json])).
Proof.
  intros d' json Hfail fuel.
  unfold CoordinatesSolver_create_task.
  rewrite CoordinatesSolver_submit_run. fold d'. fold json.
  rewrite Hfail. reflexivity.
Qed.

(** The service refuses the task: one post, no fuel needed. *)
Lemma CoordinatesSolver_create_task_fails_early_witness :
  let self := client_coordinates (Async2Captcha_init Stubs.refusing "key") in
  exists w',
    CoordinatesSolver_create_task MoreStubs.no_more 0 self "aGVsbG8=" None None None None
      Stubs.empty_world
      = Some (Raise (TwoCaptchaError 12 "ERROR_CAPTCHA_UNSOLVABLE" "unsolvable"), w') /\
    posts (trace w') = 1%nat /\ slept (trace w') = 0.
Proof.
  intros self. eexists. split.
  - apply (CoordinatesSolver_create_task_fails_early MoreStubs.no_more self "aGVsbG8=" None None
             None None Stubs.empty_world). reflexivity.
  - split; vm_compute; reflexivity.
Defined.

(** ** The re-projection beyond the well-shaped solution *)

(** X11.  A re-projection that succeeds changes nothing but the type of
    the solution: task id, error fields and status are those of the generic
    Task, hence so are the three states. *)
Theorem reproject_keeps_state (lax_int : value -> option Z) (t : Task) (typed : CoordinatesTask) :
  reproject lax_int t = Ret typed ->
  task_id typed = task_id t /\ error_id typed = error_id t /\
  error_code typed = error_code t /\
  error_description typed = error_description t /\
  status typed = status t /\
  is_ready typed = is_ready t /\ is_processing typed = is_processing t /\
  is_error typed = is_error t.
Proof.
  intros Hre. apply reproject_inv in Hre as (Hid & He & Hc & Hd & Hs).
  repeat (split; [assumption|]).
  unfold is_ready, is_processing, is_error, status_is.
  rewrite He, Hs. repeat split.
Qed.

(** A processing Task, which has no solution, re-projects to a processing
    typed Task. *)
Lemma reproject_keeps_state_witness :
  let t := task (Stubs.running Stubs.refusing) in
  exists typed, reproject MoreStubs.no_more t = Ret typed /\
    is_processing typed = true /\ task_id typed = Some 42.
Proof.
  intros t. eexists.
  assert (Hre : reproject MoreStubs.no_more t
                = Ret {| task_id := Some 42; error_id := 0; error_code := None;
                         error_description := None; status := Some "processing";
                         solution := None |}).
  { vm_compute. reflexivity. }
  split; [exact Hre|].
  destruct (reproject_keeps_state _ _ _ Hre) as (Hid & _ & _ & _ & _ & _ & Hp & _).
  split; [rewrite Hp; reflexivity|rewrite Hid; reflexivity].
Defined.

(** X12.  [coordinates] is a required field of [CoordinatesSolution]: the
    re-projection of any Task whose solution is a mapping without that
    key raises a validation error on that field, whatever the other fields
    of the Task and the other entries of the solution are. *)
Theorem reproject_requires_coordinates (lax_int : value -> option Z) (t : Task) (d : dict) :
  solution t = Some (VDict d) ->
  d !! "coordinates" = None ->
  reproject lax_int t = Raise (ValidationError "CoordinatesSolution" "coordinates").
Proof.
  intros Hsol Hmiss.
  unfold reproject, CoordinatesTask_init, TaskModel_validate, id.
  change (Task_model_dump t !! "error_id") with (Some (VInt (error_id t))).
  change (Task_model_dump t !! "error_code")
    with (Some (of_opt_str (error_code t))).
  change (Task_model_dump t !! "error_description")
    with (Some (of_opt_str (error_description t))).
  change (Task_model_dump t !! "task_id") with (Some (of_opt_int (task_id t))).
  change (Task_model_dump t !! "status") with (Some (of_opt_str (status t))).
  change (Task_model_dump t !! "solution")
    with (Some (default VNone (solution t))).
  rewrite Hsol.
  change (default VNone (Some (VDict d))) with (VDict d).
  cbn [validate_optional validate_CoordinatesSolution].
  change (CamelCase.to_camel "coordinates") with "coordinates".
  rewrite Hmiss. cbn [validate_required obind].
  destruct (error_code t), (error_description t), (task_id t), (status t);
    reflexivity.
Qed.

(** The ready Task with a token for a solution. *)
Lemma reproject_requires_coordinates_witness :
  reproject MoreStubs.no_more Stubs.token_task
    = Raise (ValidationError "CoordinatesSolution" "coordinates").
Proof.
  apply (reproject_requires_coordinates MoreStubs.no_more Stubs.token_task
           {[ "token" := VStr "0.abc" ]}).
  - reflexivity.
  - vm_compute. reflexivity.
Defined.

(** X13.  The keys of the assembled payload are ["body"] and one key for
    each optional argument that passed its test, nothing else: between one
    and five keys, and never ["type"], so the type the client writes is
    always a new entry. *)
Theorem coordinates_payload_keys (body : string)
    (comment img_instructions : option string) (min_clicks max_clicks : option Z) :
  let payload := coordinates_payload body comment img_instructions
                   min_clicks max_clicks in
  dom payload =
    ({[ "body" ]} : gset string)
    ∪ (if truthy comment then {[ "comment" ]} else ∅)
    ∪ (if truthy img_instructions then {[ "imgInstructions" ]} else ∅)
    ∪ (if is_not_None min_clicks then {[ "minClicks" ]} else ∅)
    ∪ (if is_not_None max_clicks then {[ "maxClicks" ]} else ∅) /\
  (1 <= size payload <= 5)%nat /\
  payload !! "type" = None /\
  size (<[ "type" := VEnum COORDINATES ]> payload) = S (size payload).
Proof.
  intros payload.
  assert (Htype : payload !! "type" = None).
  { apply payload_other. rewrite !elem_of_cons, elem_of_nil.
    intros [?|[?|[?|[?|[?|[]]]]]]; discriminate. }
  split; [|split; [|split; [exact Htype|]]].
  - unfold payload, coordinates_payload.
    destruct (truthy comment), (truthy img_instructions),
      (is_not_None min_clicks), (is_not_None max_clicks);
      rewrite ?dom_insert_L, dom_singleton_L; set_solver.
  - unfold payload, coordinates_payload.
    destruct (truthy comment), (truthy img_instructions),
      (is_not_None min_clicks), (is_not_None max_clicks);
      repeat (rewrite map_size_insert_None by (by simplify_map_eq));
      rewrite map_size_singleton; lia.
  - apply map_size_insert_None. exact Htype.
Qed.

(** X14.  The events of a solver call that ended: the [/createTask] post
    of the payload with the type; and, unless the call ended there, the
    polls of the handle built from the response, [k] idle turns with their
    sleeps of 10 and a last post, and nothing else. *)
Theorem CoordinatesSolver_create_task_events (lax_int : value -> option Z) (fuel : nat) (self : SolverBase)
    (body : string) (comment img_instructions : option string)
    (min_clicks max_clicks : option Z) (w : world) r w' :
  CoordinatesSolver_create_task lax_int fuel self body comment img_instructions
    min_clicks max_clicks w = Some (r, w') ->
  let json := Some {[ "task" := VDict (<[ "type" := VEnum COORDINATES ]>
                (coordinates_payload body comment img_instructions
                   min_clicks max_clicks)) ]} in
  trace w' = trace w ++ [EvPost "/createTask" json] \/
  exists data running k,
    transport (session (solver_client self)) (trace w) "/createTask" json
      = Ret data /\
    Task_model_validate data = Ret (task running) /\
    client running = solver_client self /\
    (k < fuel)%nat /\
    trace w' = trace w ++ [EvPost "/createTask" json]
                 ++ idle_turns running k ++ [poll_request running].
Proof.
  intros Hrun json.
  apply CoordinatesSolver_create_task_cases in Hrun
    as [(e & Hsub & _)|(running & w1 & r0 & Hsub & Hwait & _)];
    rewrite CoordinatesSolver_submit_run in Hsub; fold json in Hsub.
  - left. inversion Hsub. reflexivity.
  - right.
    destruct (transport _ _ _ _) as [data|e] eqn:Hdata; [|discriminate].
    cbn [obind] in Hsub.
    destruct (Task_model_validate data) as [t|e] eqn:Hparse; [|discriminate].
    cbn [obind] in Hsub. inversion Hsub; subst running w1; clear Hsub.
    destruct (wait_until_completed_sound _ _ _ _ _ Hwait)
      as (k & Hk & _ & -> & _).
    exists data, {| client := solver_client self; task := t |}, k.
    split; [reflexivity|]. split; [exact Hparse|]. split; [reflexivity|].
    split; [exact Hk|].
    cbn [log_event trace]. rewrite after_polls_trace. cbn [trace].
    rewrite <- !app_assoc. reflexivity.
Qed.

(** The solver against the stub that is ready at the second poll: create,
    poll, sleep, poll. *)
Lemma CoordinatesSolver_create_task_events_witness :
  let self := client_coordinates (Async2Captcha_init (Stubs.slow 2 VNone) "key") in
  let json := Some {[ "task" := VDict (<[ "type" := VEnum COORDINATES ]>
                (coordinates_payload "aGVsbG8=" None None (Some 1) None)) ]} in
  let poll := EvPost "/getTaskResult" (Some {[ "taskId" := VInt 42 ]}) in
  let w' := World {[ 1%positive := <[ "type" := VEnum COORDINATES ]>
                       (coordinates_payload "aGVsbG8=" None None (Some 1) None) ]}
                  [EvPost "/createTask" json; poll; EvSleep 10; poll] in
  trace w' = trace Stubs.empty_world ++ [EvPost "/createTask" json] \/
  exists data running k,
    transport (session (solver_client self)) (trace Stubs.empty_world)
      "/createTask" json = Ret data /\
    Task_model_validate data = Ret (task running) /\
    client running = solver_client self /\
    (k < 2)%nat /\
    trace w' = trace Stubs.empty_world ++ [EvPost "/createTask" json]
                 ++ idle_turns running k ++ [poll_request running].
Proof.
  intros self json poll w'.
  apply (CoordinatesSolver_create_task_events MoreStubs.no_more 2 self "aGVsbG8=" None None
           (Some 1) None Stubs.empty_world
           (Ret {| task_id := None; error_id := 0; error_code := None;
                   error_description := None; status := Some "ready";
                   solution := Some Stubs.clicked |})).
  vm_compute. reflexivity.
Defined.

(** X15.  The loop reads two things from its handle, the client and the
    task id: two handles that agree on them run alike, whatever status or
    solution the creation response left in them; in particular a handle
    created as already ready still polls. *)
Theorem wait_until_completed_reads_id_only
    (self1 self2 : RunningTask) :
  client self1 = client self2 ->
  task_id (task self1) = task_id (task self2) ->
  forall fuel w,
    wait_until_completed fuel self1 w = wait_until_completed fuel self2 w.
Proof.
  intros Hc Hid fuel.
  induction fuel as [|fuel IH]; intros w; [reflexivity|].
  cbn [wait_until_completed].
  assert (Hpoll : poll_once self1 w = poll_once self2 w).
  { unfold poll_once. rewrite Hc, Hid. reflexivity. }
  rewrite Hpoll.
  destruct (poll_once self2 w) as [[[t|]|e] w1]; [reflexivity|apply IH|reflexivity].
Qed.

(** A handle whose creation response was already ready, with its
    solution, against the one that was processing. *)
Lemma wait_until_completed_reads_id_only_witness :
  let net := Stubs.slow 2 VNone in
  let ready_handle :=
    {| client := Async2Captcha_init net "key";
       task := {| task_id := Some 42; error_id := 0; error_code := None;
                  error_description := None; status := Some "ready";
                  solution := Stubs.ready_body !! "solution" |} |} in
  wait_until_completed 3 ready_handle Stubs.empty_world
    = wait_until_completed 3 (Stubs.running net) Stubs.empty_world.
Proof.
  intros net ready_handle.
  apply (wait_until_completed_reads_id_only ready_handle (Stubs.running net));
    reflexivity.
Defined.
